(** * hutch-python: the load cache and the configuration dispatch

    A shallow embedding of [hutch_python/cache.py] (class [LoadCache]) and
    [hutch_python/load_conf.py] (function [load]), followed by the
    properties of the two that the specification states.

    Python values that the code only passes around stay abstract; the
    pieces of the Python runtime the code leans on (exception classes and
    [except] matching, insertion-ordered dictionaries, negative list
    indices, [str.split], [str.join], [str.format], [pathlib] joins on a
    POSIX system, attribute lookup on a module) are modelled as Python
    defines them. *)

From stdpp Require Import gmap strings list.
From Stdlib Require Import Ascii ZArith Lia.

Local Open Scope stdpp_scope.

(** ** The fragment of the Python runtime the two files use *)

Module Python.

(** Exception classes with their place in the built-in hierarchy. A class
    defined by a plugin names its base class. *)
Inductive exn_class : Type :=
  | BaseException
  | Exception
  | SystemExit
  | KeyboardInterrupt
  | GeneratorExit
  | ImportError
  | ModuleNotFoundError
  | AttributeError
  | IndexError
  | KeyError
  | TypeError
  | ValueError
  | RuntimeError
  | OSError
  | FileNotFoundError
  | PermissionError
  | IsADirectoryError
  | UserDefined (name : string) (base : exn_class).

#[global] Instance exn_class_eq_dec : EqDecision exn_class.
Proof. solve_decision. Defined.

(** The method resolution order of an exception class: the class itself
    followed by its ancestors (single inheritance). *)
Fixpoint mro (c : exn_class) : list exn_class :=
  match c with
  | BaseException => [BaseException]
  | Exception => [Exception; BaseException]
  | SystemExit => [SystemExit; BaseException]
  | KeyboardInterrupt => [KeyboardInterrupt; BaseException]
  | GeneratorExit => [GeneratorExit; BaseException]
  | ImportError => [ImportError; Exception; BaseException]
  | ModuleNotFoundError =>
      [ModuleNotFoundError; ImportError; Exception; BaseException]
  | AttributeError => [AttributeError; Exception; BaseException]
  | IndexError => [IndexError; Exception; BaseException]
  | KeyError => [KeyError; Exception; BaseException]
  | TypeError => [TypeError; Exception; BaseException]
  | ValueError => [ValueError; Exception; BaseException]
  | RuntimeError => [RuntimeError; Exception; BaseException]
  | OSError => [OSError; Exception; BaseException]
  | FileNotFoundError =>
      [FileNotFoundError; OSError; Exception; BaseException]
  | PermissionError =>
      [PermissionError; OSError; Exception; BaseException]
  | IsADirectoryError =>
      [IsADirectoryError; OSError; Exception; BaseException]
  | UserDefined _ base => c :: mro base
  end.

Definition issubclass (c d : exn_class) : bool := bool_decide (d ∈ mro c).

(** A raised exception: its class and its message. *)
Record exception : Type := PyExc { exc_class : exn_class; exc_msg : string }.

#[global] Instance exception_eq_dec : EqDecision exception.
Proof. solve_decision. Defined.

(** [except cls:] handles [e] when [isinstance(e, cls)]. *)
Definition handled_by (cls : exn_class) (e : exception) : bool :=
  issubclass (exc_class e) cls.

(** The result of evaluating a call: a value, or an exception on its way
    up the stack. *)
Inductive outcome (A : Type) : Type :=
  | Returned (a : A)
  | Raised (e : exception).
Arguments Returned {A} a.
Arguments Raised {A} e.

Definition obind {A B} (m : outcome A) (k : A → outcome B) : outcome B :=
  match m with
  | Returned a => k a
  | Raised e => Raised e
  end.

#[global] Instance outcome_ret : MRet outcome := @Returned.
#[global] Instance outcome_bind : MBind outcome :=
  fun A B k m => obind m k.

Definition completes {A} (m : outcome A) : Prop :=
  match m with Returned _ => True | Raised _ => False end.

(** *** dict: insertion-ordered, unique keys *)

Definition pydict (V : Type) : Type := list (string * V).

Section Dict.
Context {V : Type}.

Fixpoint dict_get (d : pydict V) (k : string) : option V :=
  match d with
  | [] => None
  | (k', v) :: d' => if decide (k' = k) then Some v else dict_get d' k
  end.

(** [d[k] = v]: an existing key keeps its position, a new key goes to
    the end. *)
Fixpoint dict_setitem (d : pydict V) (k : string) (v : V) : pydict V :=
  match d with
  | [] => [(k, v)]
  | (k', v') :: d' =>
      if decide (k' = k) then (k', v) :: d'
      else (k', v') :: dict_setitem d' k v
  end.

(** [d.update] with keyword arguments [kw]: the keywords are stored
    one by one, in call order. *)
Definition dict_update (d : pydict V) (kw : list (string * V)) : pydict V :=
  foldl (fun acc kv => dict_setitem acc kv.1 kv.2) d kw.

Definition dict_keys (d : pydict V) : list string := d.*1.
End Dict.

(** *** list indexing with Python's negative indices *)

Section ListIndex.
Context {A : Type}.

Definition norm_index (l : list A) (i : Z) : option nat :=
  let n := Z.of_nat (length l) in
  let j := if (i <? 0)%Z then (i + n)%Z else i in
  if (0 <=? j)%Z && (j <? n)%Z then Some (Z.to_nat j) else None.

Definition list_getitem (l : list A) (i : Z) : outcome A :=
  match norm_index l i with
  | Some j =>
      match l !! j with
      | Some x => Returned x
      | None => Raised (PyExc IndexError "list index out of range")
      end
  | None => Raised (PyExc IndexError "list index out of range")
  end.

Definition list_setitem (l : list A) (i : Z) (x : A) : outcome (list A) :=
  match norm_index l i with
  | Some j => Returned (<[j := x]> l)
  | None => Raised (PyExc IndexError "list assignment index out of range")
  end.
End ListIndex.

(** *** str methods *)

(** [s.split(sep)] for a one-character separator: never empty, keeps
    empty fields. *)
Fixpoint split (sep : ascii) (s : string) : list string :=
  match s with
  | EmptyString => [EmptyString]
  | String c s' =>
      if decide (c = sep) then EmptyString :: split sep s'
      else match split sep s' with
           | [] => [String c EmptyString]
           | f :: fs => String c f :: fs
           end
  end.

(** [sep.join(l)] *)
Fixpoint join (sep : string) (l : list string) : string :=
  match l with
  | [] => EmptyString
  | [x] => x
  | x :: l' => x +:+ sep +:+ join sep l'
  end.

Fixpoint spaces (n : nat) : string :=
  match n with
  | O => EmptyString
  | S n' => String " "%char (spaces n')
  end.

(** [format(s, '<w')]: [s] flush left in a field of [w] columns, the
    fill (spaces) goes to the right; a longer [s] is kept whole. *)
Definition ljust (w : nat) (s : string) : string :=
  s +:+ spaces (w - String.length s).

Fixpoint contains_char (c : ascii) (s : string) : bool :=
  match s with
  | EmptyString => false
  | String c' s' => bool_decide (c' = c) || contains_char c s'
  end.

End Python.

(** ** hutch_python/load_conf.py *)

Module LoadConf.
Import Python.

Section Load.
(** What a header's block holds and what a plugin builds from it are
    opaque to the dispatch. *)
Context {Info Objs : Type}.

(** A module as [load] uses it: the attribute [load_objs], when the
    module defines one. *)
Record plugin_module : Type :=
  PluginModule { load_objs : option (Info → outcome Objs) }.

(** A callable that takes a dotted module name and imports it. *)
Definition importer : Type := string → outcome plugin_module.

(** The module object [importlib]: attribute name to callable. *)
Definition module_attrs : Type := string → option importer.

(** [importlib] as the Python standard library ships it. Its importing
    function is [import_module]; the library defines no attribute
    [import_header]. *)
Definition stdlib_importlib (import_module : importer) : module_attrs :=
  fun attr =>
    if decide (attr = "import_module") then Some import_module else None.

(** [importlib.<name>]: module attribute lookup. *)
Definition getattr_module (m : module_attrs) (name : string)
  : outcome importer :=
  match m name with
  | Some f => Returned f
  | None =>
      Raised (PyExc AttributeError
        ("module 'importlib' has no attribute '" +:+ name +:+ "'"))
  end.

(** [loader.load_objs] *)
Definition getattr_load_objs (loader : plugin_module)
  : outcome (Info → outcome Objs) :=
  match load_objs loader with
  | Some f => Returned f
  | None =>
      Raised (PyExc AttributeError
        "module has no attribute 'load_objs'")
  end.

Inductive levelname : Type := DEBUG | INFO | WARNING | ERROR | CRITICAL.

(** A record handed to the module's logger. [logger.exception] logs at
    level ERROR and attaches the exception being handled. *)
Record log_record : Type := LogRecord {
  level : levelname;
  message : string;
  exc_info : exception
}.

Definition import_error_message (header : string) : string :=
  "ImportError when including " +:+ header +:+ ". Skipping.".

Definition build_error_message (header : string) : string :=
  "Exception thrown when building " +:+ header +:+ " objects. Skipping".

Definition logger_exception (msg : string) (e : exception) : log_record :=
  LogRecord ERROR msg e.

(** The locals of [load] that outlive an iteration, and the log. *)
Record load_state : Type := LoadState {
  log : list log_record;
  all_objs : pydict Objs
}.

Definition initial_state : load_state := LoadState [] [].

Definition plugin_name (header : string) : string :=
  "hutch_python.yaml_" +:+ header.

(** The first [try]: look up [importlib.import_header], then call it on
    the plugin name. *)
Definition resolve (importlib : module_attrs) (header : string)
  : outcome plugin_module :=
  f ← getattr_module importlib "import_header"; f (plugin_name header).

(** The second [try]: look up [loader.load_objs], then call it. *)
Definition invoke (loader : plugin_module) (info : Info) : outcome Objs :=
  f ← getattr_load_objs loader; f info.

(** One iteration of the [for] loop. The second component is the
    exception that leaves the loop, if any; [None] covers both
    [continue] and falling off the end of the body. The assignment
    [objs = []] that opens the body has no effect on the result: each
    handler ends in [continue] before [all_objs[header] = objs], and the
    remaining path rebinds [objs] first. *)
Definition load_header (importlib : module_attrs)
    (item : string * Info) (st : load_state)
  : load_state * option exception :=
  let '(header, info) := item in
  match resolve importlib header with
  | Raised e =>
      if handled_by ImportError e then
        (LoadState
           (log st ++ [logger_exception (import_error_message header) e])
           (all_objs st), None)
      else (st, Some e)
  | Returned loader =>
      match invoke loader info with
      | Raised e =>
          if handled_by Exception e then
            (LoadState
               (log st ++ [logger_exception (build_error_message header) e])
               (all_objs st), None)
          else (st, Some e)
      | Returned objs =>
          (LoadState (log st) (dict_setitem (all_objs st) header objs),
           None)
      end
  end.

Fixpoint load_loop (importlib : module_attrs)
    (items : list (string * Info)) (st : load_state)
  : load_state * option exception :=
  match items with
  | [] => (st, None)
  | item :: rest =>
      match load_header importlib item st with
      | (st', None) => load_loop importlib rest st'
      | (st', Some e) => (st', Some e)
      end
  end.

(** What a call of [load] can hand back. *)
Inductive retval : Type :=
  | PyNone
  | PyDict (d : pydict Objs).

(** [load], from the parsed file on: [parsed] is what [yaml.load(f)]
    gave, a sequence whose element 0 is the configuration document.
    The function body ends after the loop, so a call that completes
    evaluates to [None]. The state is returned next to the outcome to
    expose the log and the local [all_objs]. *)
Definition load (importlib : module_attrs) (parsed : list (pydict Info))
  : load_state * outcome retval :=
  match list_getitem parsed 0 with
  | Raised e => (initial_state, Raised e)
  | Returned conf =>
      match load_loop importlib conf initial_state with
      | (st, None) => (st, Returned PyNone)
      | (st, Some e) => (st, Raised e)
      end
  end.

(** What one header amounts to when [import_header] is [imp]. *)
Definition header_result (imp : importer) (item : string * Info)
  : outcome Objs :=
  loader ← imp (plugin_name item.1); invoke loader item.2.

(** A header's failure is one of the two kinds the loop handles. *)
Definition recoverable (imp : importer) (item : string * Info) : bool :=
  match imp (plugin_name item.1) with
  | Raised e => handled_by ImportError e
  | Returned loader =>
      match invoke loader item.2 with
      | Raised e => handled_by Exception e
      | Returned _ => true
      end
  end.

(** The headers that went through, with what their plugin built. *)
Definition built (imp : importer) (conf : pydict Info) : pydict Objs :=
  omap (fun item =>
          match header_result imp item with
          | Returned objs => Some (item.1, objs)
          | Raised _ => None
          end) conf.
End Load.

Arguments plugin_module : clear implicits.
Arguments importer : clear implicits.
Arguments module_attrs : clear implicits.
Arguments load_state : clear implicits.
Arguments retval : clear implicits.

End LoadConf.

(** ** hutch_python/cache.py *)

Module Cache.
Import Python.

Definition nl : string := String "010"%char EmptyString.

(** *** Objects and their classes *)

(** The class of a class. [type] prints a class as
    [<class 'module.qualname'>]. A metaclass that defines [__repr__],
    [__str__] or [__format__] itself (as [enum.EnumType] does) prints
    what that method returns; [formatted] is that text for the class at
    hand. *)
Inductive metaclass : Type :=
  | type_
  | Metaclass (formatted : string).

Record pyclass : Type := PyClass {
  cls_module : string;
  cls_qualname : string;
  cls_meta : metaclass
}.

(** The objects a namespace holds. The cache never looks inside one; it
    only formats its class. *)
Inductive pyobj : Type :=
  | PyInt (n : Z)
  | PyStr (s : string)
  | PyInstance (cls : pyclass) (ident : positive).

(** [obj.__class__] *)
Definition class_of (o : pyobj) : pyclass :=
  match o with
  | PyInt _ => PyClass "builtins" "int" type_
  | PyStr _ => PyClass "builtins" "str" type_
  | PyInstance cls _ => cls
  end.

(** The name [type.__repr__] prints: the qualified name, with the
    module in front unless the module is [builtins]. *)
Definition dotted_name (c : pyclass) : string :=
  if decide (cls_module c = "builtins") then cls_qualname c
  else cls_module c +:+ "." +:+ cls_qualname c.

(** [type.__repr__(cls)] *)
Definition type_repr (c : pyclass) : string :=
  "<class '" +:+ dotted_name c +:+ "'>".

(** [format(cls, '')]: what [str.format] substitutes for a class
    object. The call goes to the metaclass, where [type] answers with
    its [__repr__]. *)
Definition format_class (c : pyclass) : string :=
  match cls_meta c with
  | type_ => type_repr c
  | Metaclass formatted => formatted
  end.

(** *** pathlib on a POSIX system *)

(** A parsed path: the root ([""] for a relative path, ["/"] or ["//"])
    and the names below it. *)
Record path : Type := MkPath { path_root : string; path_names : list string }.

Definition starts_with_slash (s : string) : bool :=
  match s with
  | String c _ => bool_decide (c = "/"%char)
  | EmptyString => false
  end.

Definition tail (s : string) : string :=
  match s with
  | String _ r => r
  | EmptyString => EmptyString
  end.

(** [posixpath.splitroot]: one leading slash or three and more make the
    root ["/"], exactly two make it ["//"]. *)
Definition split_root (s : string) : string * string :=
  if negb (starts_with_slash s) then ("", s)
  else if negb (starts_with_slash (tail s))
          || starts_with_slash (tail (tail s))
       then ("/", tail s)
       else ("//", tail (tail s)).

Definition keep_name (x : string) : bool :=
  negb (bool_decide (x = "")) && negb (bool_decide (x = ".")).

(** [Path(s)] *)
Definition Path (s : string) : path :=
  let '(root, rel) := split_root s in
  MkPath root (filter (fun x => Is_true (keep_name x)) (split "/" rel)).

(** [a / b]: an absolute right operand replaces the left one. *)
Definition truediv (a b : path) : path :=
  if decide (path_root b = "") then
    MkPath (path_root a) (path_names a ++ path_names b)
  else b.

(** [str(p)] *)
Definition path_str (p : path) : string :=
  match path_root p, path_names p with
  | EmptyString, [] => "."
  | root, names => root +:+ join "/" names
  end.

(** *** The process and its surroundings *)

Definition loc : Type := positive.

(** Modelled from the spec: the class [IterableNamespace] of
    [hutch_python/utils.py], which the sources at hand import but do not
    contain. The spec has it as an ordered, attribute-addressable mapping
    from name to object, created from the initial objects; [cache.py]
    reaches its content through [__dict__] only. The definition gives the
    [__dict__] of a new instance. *)
Definition IterableNamespace (objs : list (string * pyobj)) : pydict pyobj :=
  dict_update [] objs.

Inductive heap_obj : Type :=
  | Namespace (dict : pydict pyobj)
  | LoadCacheObj (objs : loc) (hutch_dir : option path) (module : string).

(** The interpreter's heap, [sys.modules], and the file system: the text
    files by path, and for each path the error that opening it for
    writing raises, if any. *)
Record world : Type := World {
  heap : gmap loc heap_obj;
  sys_modules : gmap string loc;
  files : gmap string string;
  open_error : string → option exception
}.

Definition set_heap (h : gmap loc heap_obj) (w : world) : world :=
  World h (sys_modules w) (files w) (open_error w).

(** Keyword arguments that name a declared parameter are rejected when
    the call is bound. *)
Definition bind_kwargs {V} (params : list string) (kw : list (string * V))
  : outcome (list (string * V)) :=
  match List.find (fun kv => bool_decide (kv.1 ∈ params)) kw with
  | Some kv =>
      Raised (PyExc TypeError
        ("got multiple values for argument '" +:+ kv.1 +:+ "'"))
  | None => Returned kw
  end.

(** *** class LoadCache *)

(** [LoadCache(module, hutch_dir, **objs)] *)
Definition LoadCache_init (module : string) (hutch_dir : option path)
    (objs : list (string * pyobj)) (w : world) : outcome loc * world :=
  match bind_kwargs ["self"; "module"; "hutch_dir"] objs with
  | Raised e => (Raised e, w)
  | Returned kw =>
      let self := fresh (dom (heap w)) in
      let ns := fresh ({[self]} ∪ dom (heap w)) in
      (Returned self,
       World
         (<[self := LoadCacheObj ns hutch_dir module]>
            (<[ns := Namespace (IterableNamespace kw)]> (heap w)))
         (<["hutch_python.db" := ns]> (<[module := ns]> (sys_modules w)))
         (files w) (open_error w))
  end.

Definition no_attribute (name : string) : exception :=
  PyExc AttributeError ("object has no attribute '" +:+ name +:+ "'").

(** [self.objs.__dict__] *)
Definition self_objs_dict (self : loc) (w : world)
  : outcome (loc * pydict pyobj) :=
  match heap w !! self with
  | Some (LoadCacheObj ns _ _) =>
      match heap w !! ns with
      | Some (Namespace d) => Returned (ns, d)
      | _ => Raised (no_attribute "__dict__")
      end
  | _ => Raised (no_attribute "objs")
  end.

(** [LoadCache.__call__(self, **objs)] *)
Definition LoadCache_call (self : loc) (objs : list (string * pyobj))
    (w : world) : outcome unit * world :=
  match bind_kwargs ["self"] objs with
  | Raised e => (Raised e, w)
  | Returned kw =>
      match self_objs_dict self w with
      | Raised e => (Raised e, w)
      | Returned (ns, d) =>
          (Returned (),
           set_heap (<[ns := Namespace (dict_update d kw)]> (heap w)) w)
      end
  end.

(** The module-level templates, after substitution. *)
Definition format_header (pkg : string) : string :=
  nl +:+ "The objects referenced in this file are populated by the "
     +:+ pkg +:+ "python" +:+ nl +:+ nl
     +:+ "initialization. If you wish to use devices from this file, import"
     +:+ nl +:+ nl
     +:+ "them from " +:+ pkg +:+ ".db after calling the " +:+ pkg
     +:+ "python startup script." +:+ nl +:+ nl +:+ nl.

Definition body_before_time : string := "hutch-python last loaded on ".
Definition body_after_time : string :=
  nl +:+ "with the following objects:" +:+ nl +:+ nl.

Definition format_body (now : string) : string :=
  body_before_time +:+ now +:+ body_after_time.

(** ['{:<20} {}\n'.format(name, obj.__class__)] *)
Definition format_entry (name : string) (obj : pyobj) : string :=
  ljust 20 name +:+ " " +:+ format_class (class_of obj) +:+ nl.

(** The loop over [self.objs.__dict__.items()]. *)
Definition append_entries (text : string) (d : pydict pyobj) : string :=
  foldl (fun text item => text +:+ format_entry item.1 item.2) text d.

(** [parts = self.module.split('.')] followed by
    [parts[-1] = parts[-1] + '.txt']. *)
Definition txt_parts (module : string) : outcome (list string) :=
  let parts := split "." module in
  last ← list_getitem parts (-1);
  list_setitem parts (-1) (last +:+ ".txt").

(** [self.hutch_dir / Path('/'.join(parts))] *)
Definition manifest_path (hutch_dir : path) (parts : list string) : path :=
  truediv hutch_dir (Path (join "/" parts)).

(** [header.format(parts[0]) + body.format(datetime.datetime.now())];
    [now] is the reading of the clock as [format] prints it. *)
Definition manifest_head (parts : list string) (now : string)
  : outcome string :=
  first ← list_getitem parts 0;
  mret (format_header first +:+ format_body now).

(** [LoadCache.write_file(self)]. Everything that can raise comes before
    the file is opened, so a call either returns with the file written or
    raises with the world as it was. *)
Definition write_file (self : loc) (now : string) (w : world)
  : outcome unit * world :=
  match heap w !! self with
  | Some (LoadCacheObj ns hutch_dir module) =>
      match hutch_dir with
      | None => (Returned (), w)
      | Some dir =>
          match
            parts ← txt_parts module;
            text ← manifest_head parts now;
            nd ← self_objs_dict self w;
            mret (manifest_path dir parts, append_entries text nd.2)
          with
          | Raised e => (Raised e, w)
          | Returned (db_path, text) =>
              match open_error w (path_str db_path) with
              | Some e => (Raised e, w)
              | None =>
                  (Returned (),
                   World (heap w) (sys_modules w)
                     (<[path_str db_path := text]> (files w))
                     (open_error w))
              end
          end
      end
  | _ => (Raised (no_attribute "hutch_dir"), w)
  end.

(** *** The namespace as importing code sees it *)

(** [vars(sys.modules[name])] *)
Definition module_dict (name : string) (w : world) : option (pydict pyobj) :=
  match sys_modules w !! name with
  | Some l =>
      match heap w !! l with
      | Some (Namespace d) => Some d
      | _ => None
      end
  | None => None
  end.

(** [vars(sys.modules[name]).update(kw)] *)
Definition module_update (name : string) (kw : list (string * pyobj))
    (w : world) : option world :=
  match sys_modules w !! name with
  | Some l =>
      match heap w !! l with
      | Some (Namespace d) =>
          Some (set_heap (<[l := Namespace (dict_update d kw)]> (heap w)) w)
      | _ => None
      end
  | None => None
  end.

(** A run of [add] calls on one cache. *)
Definition add_all (self : loc) (calls : list (list (string * pyobj)))
    (w : world) : world :=
  foldl (fun w kw => (LoadCache_call self kw w).2) w calls.

Fixpoint concat_all (l : list string) : string :=
  match l with
  | [] => EmptyString
  | x :: l' => x +:+ concat_all l'
  end.

(** A name that [Path] keeps as it is. *)
Definition plain_name (x : string) : Prop :=
  x ≠ "" ∧ x ≠ "." ∧ contains_char "/" x = false.

(** The text of the entries, one after the other. *)
Definition entries_text (d : pydict pyobj) : string :=
  concat_all ((fun item => format_entry item.1 item.2) <$> d).

(** No segment before the last one is empty. *)
Fixpoint leading_segments_nonempty (segs : list string) : bool :=
  match segs with
  | [] => true
  | [_] => true
  | x :: l => negb (bool_decide (x = "")) && leading_segments_nonempty l
  end.

End Cache.

(** ** The manifest as the specification words it *)

Module Spec.
Import Python Cache.

(** A string padded on the left to [w] columns. *)
Definition left_padded (w : nat) (s : string) : string :=
  spaces (w - String.length s) +:+ s.

(** The name of the runtime type of a value. *)
Definition type_name (o : pyobj) : string := cls_qualname (class_of o).

(** The line of an entry: the name left-padded to 20 columns, a space,
    the runtime type name. *)
Definition entry_line (name : string) (o : pyobj) : string :=
  left_padded 20 name +:+ " " +:+ type_name o.

(** The same line under the other reading of the padding: the name
    first, the fill after it. *)
Definition entry_line_fill_right (name : string) (o : pyobj) : string :=
  ljust 20 name +:+ " " +:+ type_name o.

(** Every segment kept, the final one renamed to [<segment>.txt]. *)
Fixpoint with_txt (segs : list string) : list string :=
  match segs with
  | [] => []
  | [x] => [x +:+ ".txt"]
  | x :: l => x :: with_txt l
  end.

(** The manifest root joined with that relative path. *)
Definition manifest_path (root : path) (module : string) : path :=
  MkPath (path_root root) (path_names root ++ with_txt (split "." module)).

Definition lines (text : string) : list string := split "010" text.

End Spec.

(** ** Concrete inputs *)

Module Examples.
Import Python LoadConf.

(** Plugins whose info block is a number and whose objects are a list of
    names. *)
Definition motors : plugin_module Z (list string) :=
  PluginModule (Some (fun _ => Returned ["motor"])).

Definition broken : plugin_module Z (list string) :=
  PluginModule (Some (fun _ => Raised (PyExc ValueError "bad prefix"))).

(** An importing function that knows two plugin modules. *)
Definition import_module : importer Z (list string) :=
  fun name =>
    if decide (name = "hutch_python.yaml_motors") then Returned motors
    else if decide (name = "hutch_python.yaml_broken") then Returned broken
    else Raised (PyExc ModuleNotFoundError ("No module named '" +:+ name +:+ "'")).

(** The standard [importlib] of a process with these plugins. *)
Definition importlib : module_attrs Z (list string) :=
  stdlib_importlib import_module.

(** A bare process: empty heap, no modules, no files, every path
    writable. *)
Definition bare : Cache.world := Cache.World ∅ ∅ ∅ (fun _ => None).

Definition hutch_root : Cache.path := Cache.Path "/reg/g/pcds/pyps/xpp".

Definition robot : Cache.pyobj :=
  Cache.PyInstance (Cache.PyClass "pcdsdevices.sim" "Robot" Cache.type_) 7.

(** A member of [class Color(enum.Enum)]: the metaclass of its class
    is [enum.EnumType], which prints the class as [<enum 'Color'>]. *)
Definition red : Cache.pyobj :=
  Cache.PyInstance
    (Cache.PyClass "xpp.beamline" "Color" (Cache.Metaclass "<enum 'Color'>"))
    8.

(** The process after [LoadCache(module, hutch_dir, x=5, robot=robot)]. *)
Definition started (module : string) (hutch_dir : option Cache.path)
  : Cache.world :=
  (Cache.LoadCache_init module hutch_dir
     [("x", Cache.PyInt 5); ("robot", robot)] bare).2.

(** The process after [LoadCache(module, hutch_dir, x=5, robot=robot,
    color=red)]. *)
Definition started_with_color (module : string)
    (hutch_dir : option Cache.path) : Cache.world :=
  (Cache.LoadCache_init module hutch_dir
     [("x", Cache.PyInt 5); ("robot", robot); ("color", red)] bare).2.

Definition the_cache : Cache.loc := 1%positive.
Definition the_namespace : Cache.loc := 2%positive.

Definition now1 : string := "2018-01-12 14:03:27.412003".
Definition now2 : string := "2018-01-12 14:03:29.000105".

(** The process after one call of [write_file], and after a second. *)
Definition written (module : string) : Cache.world :=
  (Cache.write_file the_cache now1 (started module (Some hutch_root))).2.

Definition written_twice (module : string) : Cache.world :=
  (Cache.write_file the_cache now2 (written module)).2.

End Examples.

(** ** hutch_python/qs_load.py: [pull_cds_items] *)

From stdpp Require Import sorting.

Module QsLoad.
Import Python.

(** *** Characters and strings *)

Definition newline : ascii := "010"%char.

Definition code (c : ascii) : N := N_of_ascii c.

Definition is_digit (c : ascii) : bool :=
  (48 <=? code c)%N && (code c <=? 57)%N.
Definition is_upper (c : ascii) : bool :=
  (65 <=? code c)%N && (code c <=? 90)%N.
Definition is_lower (c : ascii) : bool :=
  (97 <=? code c)%N && (code c <=? 122)%N.
Definition is_ascii (c : ascii) : bool := (code c <? 128)%N.

(** [str.upper] and [str.lower] on one character, for ASCII text: only
    the 26 letters change. *)
Definition upper_char (c : ascii) : ascii :=
  if is_lower c then ascii_of_N (code c - 32) else c.
Definition lower_char (c : ascii) : ascii :=
  if is_upper c then ascii_of_N (code c + 32) else c.

Fixpoint str_map (f : ascii → ascii) (s : string) : string :=
  match s with
  | EmptyString => EmptyString
  | String c r => String (f c) (str_map f r)
  end.

Fixpoint str_forall (p : ascii → bool) (s : string) : bool :=
  match s with
  | EmptyString => true
  | String c r => p c && str_forall p r
  end.

Fixpoint str_take (n : nat) (s : string) : string :=
  match n, s with
  | S n', String c r => String c (str_take n' r)
  | _, _ => EmptyString
  end.

Fixpoint str_drop (n : nat) (s : string) : string :=
  match n, s with
  | S n', String _ r => str_drop n' r
  | _, _ => s
  end.

(** A slice bound brought into range: a negative one counts from the
    end, and both are clipped to the string. *)
Definition clamp (n : nat) (i : Z) : nat :=
  if (i <? 0)%Z then Z.to_nat (Z.max 0 (i + Z.of_nat n))
  else Nat.min (Z.to_nat i) n.

(** [s[start:stop]], a missing bound being [None]. *)
Definition slice (s : string) (start stop : option Z) : string :=
  let n := String.length s in
  let lo := from_option (clamp n) 0%nat start in
  let hi := from_option (clamp n) n stop in
  str_take (hi - lo) (str_drop lo s).

(** [s.capitalize()] *)
Definition capitalize (s : string) : string :=
  match s with
  | EmptyString => EmptyString
  | String c r => String (upper_char c) (str_map lower_char r)
  end.

(** [p] is a prefix of [s]; what follows it. *)
Fixpoint strip_prefix (p s : string) : option string :=
  match p, s with
  | EmptyString, _ => Some s
  | String a p', String b s' =>
      if decide (a = b) then strip_prefix p' s' else None
  | String _ _, EmptyString => None
  end.

Definition starts_with (p s : string) : bool :=
  match strip_prefix p s with Some _ => true | None => false end.

(** [sub in s] *)
Fixpoint contains_sub (sub s : string) : bool :=
  starts_with sub s
  || match s with
     | EmptyString => false
     | String _ r => contains_sub sub r
     end.

(** *** The regular expressions of the function *)

Definition not_newline (c : ascii) : bool := negb (bool_decide (c = newline)).

(** [$]: the end of the string, or the newline that ends it. *)
Definition at_end (s : string) : bool :=
  bool_decide (s = "") || bool_decide (s = String newline "").

(** A character class exactly [n] times, then the rest of the pattern. *)
Fixpoint times (p : ascii → bool) (n : nat) (rest : string → bool)
    (s : string) : bool :=
  match n with
  | O => rest s
  | S n' =>
      match s with
      | String c r => p c && times p n' rest r
      | EmptyString => false
      end
  end.

(** [re.match('^.{4}[0-9]{7}$', exp)] *)
Definition match_experiment (exp : string) : bool :=
  times not_newline 4 (times is_digit 7 at_end) exp.

(** [re.match('[A-Z]{1}-[0-9]{5}$', exp)] *)
Definition match_proposal_dash (exp : string) : bool :=
  times is_upper 1
    (fun s =>
       match s with
       | String "-" r => times is_digit 5 at_end r
       | _ => false
       end) exp.

(** [re.match('^[A-Z]{2}[0-9]{2}$', exp)] *)
Definition match_proposal_short (exp : string) : bool :=
  times is_upper 2 (times is_digit 2 at_end) exp.

(** [.*] followed by the literal [lit]: some occurrence of [lit] is
    reached without crossing a newline. *)
Fixpoint dotstar_then (lit s : string) : bool :=
  starts_with lit s
  || match s with
     | EmptyString => false
     | String c r => not_newline c && dotstar_then lit r
     end.

(** [re.match(prefix + '.*-name', k)] *)
Definition match_category (prefix k : string) : bool :=
  match strip_prefix prefix k with
  | Some r => dotstar_then "-name" r
  | None => false
  end.

(** [re.sub('name', repl, k)]: every occurrence of [name], from the
    left, none overlapping. *)
Fixpoint sub_name (repl s : string) : string :=
  match s with
  | String "n" (String "a" (String "m" (String "e" r))) =>
      repl +:+ sub_name repl r
  | String c r => String c (sub_name repl r)
  | EmptyString => EmptyString
  end.

(** *** The console *)

Record QStruct : Type := MkQStruct {
  alias : string;
  pvbase : string;
  pvtype : string
}.

(** What reaches the terminal: a printed line, the prompt of an
    [input], the table handed to [print]. *)
Inductive output : Type :=
  | Print (line : string)
  | Prompt (text : string)
  | PrintTable (rows : list QStruct).

Record console : Type := Console {
  stdin : list string;
  stdout : list output
}.

Definition EOFError : exn_class := UserDefined "EOFError" Exception.

Definition print (line : string) (c : console) : console :=
  Console (stdin c) (stdout c ++ [Print line]).

(** [input(prompt)]: the prompt is written, a line is read; at the end
    of the input [EOFError] is raised. *)
Definition input (prompt : string) (c : console) : outcome string * console :=
  match stdin c with
  | [] =>
      (Raised (PyExc EOFError "EOF when reading a line"),
       Console [] (stdout c ++ [Prompt prompt]))
  | line :: rest => (Returned line, Console rest (stdout c ++ [Prompt prompt]))
  end.

(** [sys.exit()] *)
Definition sys_exit : exception := PyExc SystemExit "".

(** *** The questionnaire client *)

(** The two requests of [QuestionnaireClient] the function makes; each
    answers with a dictionary or raises. *)
Record client : Type := Client {
  getProposalsListForRun : string → outcome (pydict string);
  getProposalDetailsForRun : string → string → outcome (pydict string)
}.

(** *** pull_cds_items *)

(** The run number and the proposal id, from the argument or from the
    user (the [if] / [elif] / [else] on the format of [exp]). *)
Definition read_run (exp : string) (c : console)
  : outcome (string * string) * console :=
  if match_experiment exp then
    let run_num := "run" +:+ slice exp (Some (-2)%Z) None in
    let run_id := slice exp (Some 3%Z) (Some (-2)%Z) in
    let formatted_run_id := capitalize run_id in
    let formatted_run_id :=
      slice formatted_run_id None (Some 1%Z) +:+ "-"
        +:+ slice formatted_run_id (Some 1%Z) None in
    (Returned (run_num, formatted_run_id), c)
  else if match_proposal_dash exp || match_proposal_short exp then
    match input "Please enter run number: " c with
    | (Raised e, c) => (Raised e, c)
    | (Returned answer, c) => (Returned ("run" +:+ answer, exp), c)
    end
  else
    let c :=
      print
        "Unrecognized format, please follow the prompts to find experiment data."
        c in
    match input "Please enter run number: " c with
    | (Raised e, c) => (Raised e, c)
    | (Returned run_num, c) =>
        match input "Please enter proposal ID: " c with
        | (Raised e, c) => (Raised e, c)
        | (Returned formatted_run_id, c) =>
            (Returned (run_num, formatted_run_id), c)
        end
    end.

(** The loop over the proposals of the run: the last key equal to the
    proposal id, [''] when there is none. *)
Definition matched_key (formatted_run_id : string) (proposals : pydict string)
  : string :=
  foldl (fun matched kv =>
           if decide (kv.1 = formatted_run_id) then kv.1 else matched)
        "" proposals.

Definition key_le (a b : string * string) : Prop := String.le a.1 b.1.

#[global] Instance key_le_dec : RelDecision key_le.
Proof. intros a b. unfold key_le. apply _. Defined.

(** [dict(sorted(d.items()))]; the keys of a dictionary differ, so the
    order of the items is the order of their keys. *)
Definition sorted_items (d : pydict string) : pydict string :=
  merge_sort key_le d.

(** The items whose key has [pcdssetup] in it. *)
Definition cds_items (d : pydict string) : pydict string :=
  List.filter (fun kv => contains_sub "pcdssetup" kv.1) d.

(** The chain of [if] / [elif]: the prefix of the key decides, in this
    order, which name replaces [name] in the key of the PV and what the
    type column says. *)
Definition categories : list (string * (string * string)) :=
  [("pcdssetup-motors", ("pvbase", "motors"));
   ("pcdssetup-areadet", ("pvbase", "areadet"));
   ("pcdssetup-ao", ("pvbase", "analog output"));
   ("pcdssetup-devs", ("pvbase", "other devices"));
   ("pcdssetup-ps", ("pvname", "power supplies"));
   ("pcdssetup-trig", ("pvbase", "triggers"));
   ("pcdssetup-vacuum", ("pvbase", "vacuum"));
   ("pcdssetup-temp", ("pvbase", "temperature"))].

Definition category_of (k : string) : option (string * (string * string)) :=
  List.find (fun cat => match_category cat.1 k) categories.

(** [cds_dict.get(key, '')] *)
Definition dict_get_default (d : pydict string) (k : string) : string :=
  from_option id "" (dict_get d k).

(** One turn of the loop that fills [displayList]. *)
Definition display_row (cds_dict : pydict string) (kv : string * string)
  : option QStruct :=
  match category_of kv.1 with
  | Some (_, (repl, pvtype)) =>
      Some (MkQStruct kv.2
              (dict_get_default cds_dict (sub_name repl kv.1)) pvtype)
  | None => None
  end.

Definition display_list (cds_dict : pydict string) : list QStruct :=
  omap (display_row cds_dict) cds_dict.

Definition request_failed : string :=
  "An invalid https request, please check the run number, proposal id and experiment number:".

Definition experiment_not_found : string :=
  "Could not find experiment, please check to make sure information is correct.".

(** [pull_cds_items(exp)]. [new_client] is what calling
    [QuestionnaireClient()] gives. The calls of [logger.debug] are left
    out: they write to the log only. *)
Definition pull_cds_items (new_client : outcome client) (exp : string)
    (c : console) : outcome unit * console :=
  match new_client with
  | Raised e => (Raised e, c)
  | Returned cl =>
      match read_run exp c with
      | (Raised e, c) => (Raised e, c)
      | (Returned (run_num, formatted_run_id), c) =>
          match getProposalsListForRun cl run_num with
          | Raised e =>
              if handled_by Exception e then
                (Raised sys_exit,
                 print (request_failed +:+ " " +:+ exc_msg e) c)
              else (Raised e, c)
          | Returned proposals =>
              let matchedKey := matched_key formatted_run_id proposals in
              match getProposalDetailsForRun cl run_num matchedKey with
              | Raised e =>
                  if handled_by Exception e then
                    (Raised sys_exit,
                     print (experiment_not_found +:+ " " +:+ exc_msg e) c)
                  else (Raised e, c)
              | Returned runDetails_Dict =>
                  let cds_dict := cds_items (sorted_items runDetails_Dict) in
                  (Returned (),
                   Console (stdin c)
                     (stdout c ++ [PrintTable (display_list cds_dict)]))
              end
          end
      end
  end.

End QsLoad.

(** ** More concrete inputs *)

Module MoreExamples.
Import Python Examples.

(** A process in which no file can be opened for writing. *)
Definition locked : Cache.world :=
  Cache.World ∅ ∅ ∅
    (fun _ => Some (PyExc FileNotFoundError "No such file or directory")).

Definition started_locked : Cache.world :=
  (Cache.LoadCache_init "xpp.db" (Some hutch_root)
     [("x", Cache.PyInt 5); ("robot", robot)] locked).2.

(** An answer of the questionnaire about a run, and the same answer
    listed in another order. *)
Definition details : pydict string :=
  [("pcdssetup-motors-2-name", "sample_y");
   ("pcdssetup-ps-1-pvname", "XPP:PS:01");
   ("proposal-title", "Dynamics");
   ("pcdssetup-motors-2-pvbase", "XPP:USR:MMS:02");
   ("pcdssetup-ps-1-name", "supply");
   ("pcdssetup-motors-1-name", "sample_x")].

Definition details_shuffled : pydict string :=
  [("pcdssetup-motors-1-name", "sample_x");
   ("pcdssetup-ps-1-name", "supply");
   ("pcdssetup-motors-2-pvbase", "XPP:USR:MMS:02");
   ("pcdssetup-motors-2-name", "sample_y");
   ("proposal-title", "Dynamics");
   ("pcdssetup-ps-1-pvname", "XPP:PS:01")].

(** A client that knows run 21 with proposal X-10032, and one whose
    requests fail. *)
Definition questionnaire : QsLoad.client :=
  QsLoad.Client
    (fun run =>
       if decide (run = "run21")
       then Returned [("X-10031", "other"); ("X-10032", "ours")]
       else Raised (PyExc (UserDefined "HTTPError" OSError) "404"))
    (fun run key =>
       if decide (key = "X-10032") then Returned details
       else Raised (PyExc KeyError key)).

Definition terminal : QsLoad.console := QsLoad.Console [] [].

End MoreExamples.

(** ** Facts about the runtime fragment *)

Module PythonFacts.
Import Python.

Section Dict.
Context {V : Type}.
Implicit Types (d : pydict V) (k : string) (v : V).

Lemma dict_get_setitem_eq d k v : dict_get (dict_setitem d k v) k = Some v.
Proof.
  induction d as [|[k' v'] d IH]; simpl.
  - by rewrite decide_True.
  - destruct (decide (k' = k)) as [->|Hne]; simpl.
    + by rewrite decide_True.
    + by rewrite decide_False.
Qed.

Lemma dict_get_setitem_ne d k k' v :
  k ≠ k' → dict_get (dict_setitem d k v) k' = dict_get d k'.
Proof.
  intros Hne. induction d as [|[k0 v0] d IH]; simpl.
  - by rewrite decide_False.
  - destruct (decide (k0 = k)) as [->|Hne0]; simpl.
    + by rewrite !decide_False.
    + destruct (decide (k0 = k')); auto.
Qed.

Lemma dict_get_None d k : dict_get d k = None ↔ k ∉ dict_keys d.
Proof.
  unfold dict_keys. induction d as [|[k0 v0] d IH]; simpl.
  - split; [intros _; apply not_elem_of_nil | done].
  - rewrite not_elem_of_cons. destruct (decide (k0 = k)) as [->|Hne].
    + split; [done | intros [? _]; done].
    + rewrite IH. split; [intros ?; split; [congruence | done] | by intros [_ ?]].
Qed.

(** Storing under a new key appends. *)
Lemma dict_setitem_new d k v :
  k ∉ dict_keys d → dict_setitem d k v = d ++ [(k, v)].
Proof.
  unfold dict_keys. induction d as [|[k0 v0] d IH]; simpl; [done|].
  rewrite not_elem_of_cons. intros [Hne Hnin].
  rewrite decide_False by done. by rewrite IH.
Qed.

(** Storing never changes the keys that are there, nor their order. *)
Lemma dict_keys_setitem d k v :
  dict_keys (dict_setitem d k v) =
    if bool_decide (k ∈ dict_keys d) then dict_keys d
    else dict_keys d ++ [k].
Proof.
  unfold dict_keys. induction d as [|[k0 v0] d IH]; [done|].
  cbn [dict_setitem]. destruct (decide (k0 = k)) as [->|Hne].
  - rewrite bool_decide_true; [done | apply list_elem_of_here].
  - rewrite fmap_cons, IH. cbn [fst fmap list_fmap].
    destruct (bool_decide (k ∈ d.*1)) eqn:Hin.
    + apply bool_decide_eq_true in Hin.
      rewrite bool_decide_true; [done | by apply list_elem_of_further].
    + apply bool_decide_eq_false in Hin.
      rewrite bool_decide_false; [done|].
      rewrite not_elem_of_cons. split; [congruence | done].
Qed.

Lemma dict_setitem_NoDup d k v :
  NoDup (dict_keys d) → NoDup (dict_keys (dict_setitem d k v)).
Proof.
  intros Hnd. rewrite dict_keys_setitem. case_bool_decide as Hin; [done|].
  apply NoDup_app. split_and!; [done | | apply NoDup_singleton].
  intros x Hx ->%list_elem_of_singleton. done.
Qed.

Lemma dict_update_cons d k v kw :
  dict_update d ((k, v) :: kw) = dict_update (dict_setitem d k v) kw.
Proof. done. Qed.

Lemma dict_update_NoDup d kw :
  NoDup (dict_keys d) → NoDup (dict_keys (dict_update d kw)).
Proof.
  revert d. induction kw as [|[k v] kw IH]; intros d Hnd; [done|].
  rewrite dict_update_cons. apply IH. by apply dict_setitem_NoDup.
Qed.

(** Updating with distinct new keys appends them in order. *)
Lemma dict_update_new d kw :
  NoDup kw.*1 → (∀ k, k ∈ kw.*1 → k ∉ dict_keys d) →
  dict_update d kw = d ++ kw.
Proof.
  revert d. induction kw as [|[k v] kw IH]; intros d Hnd Hnew.
  - by rewrite app_nil_r.
  - rewrite dict_update_cons. simpl in Hnd. apply NoDup_cons in Hnd as [Hk Hnd].
    rewrite dict_setitem_new by (apply Hnew; apply list_elem_of_here).
    rewrite IH; [by rewrite <-app_assoc | done |].
    intros k' Hk'. unfold dict_keys. rewrite fmap_app. simpl.
    rewrite not_elem_of_app. split.
    + apply Hnew. by apply list_elem_of_further.
    + intros ->%list_elem_of_singleton. done.
Qed.
End Dict.

Lemma bind_Returned {A B} (a : A) (k : A → outcome B) :
  (Returned a ≫= k) = k a.
Proof. reflexivity. Qed.

End PythonFacts.

(** ** Facts about [load] *)

Module LoadConfFacts.
Import Python LoadConf PythonFacts.

Section Load.
Context {Info Objs : Type}.
Implicit Types (importlib : module_attrs Info Objs) (imp : importer Info Objs)
  (conf : pydict Info) (st : load_state Objs).

Lemma resolve_stdlib (import_module : importer Info Objs) header :
  resolve (stdlib_importlib import_module) header =
    Raised (PyExc AttributeError
              "module 'importlib' has no attribute 'import_header'").
Proof. reflexivity. Qed.

Lemma resolve_import_header importlib imp header :
  importlib "import_header" = Some imp →
  resolve importlib header = imp (plugin_name header).
Proof. intros H. unfold resolve, getattr_module. by rewrite H. Qed.

(** An [ImportError] from the importing function: one record naming the
    header, nothing stored, and the loop goes on. *)
Lemma load_header_import_error importlib imp header info st e :
  importlib "import_header" = Some imp →
  imp (plugin_name header) = Raised e →
  handled_by ImportError e = true →
  load_header importlib (header, info) st =
    (LoadState
       (log st ++ [LogRecord ERROR (import_error_message header) e])
       (all_objs st), None).
Proof.
  intros Himp He Hh. unfold load_header.
  rewrite (resolve_import_header _ _ _ Himp), He, Hh. done.
Qed.

Lemma load_header_build_error importlib imp header info st loader e :
  importlib "import_header" = Some imp →
  imp (plugin_name header) = Returned loader →
  invoke loader info = Raised e →
  handled_by Exception e = true →
  load_header importlib (header, info) st =
    (LoadState
       (log st ++ [LogRecord ERROR (build_error_message header) e])
       (all_objs st), None).
Proof.
  intros Himp Hl He Hh. unfold load_header.
  rewrite (resolve_import_header _ _ _ Himp), Hl, He, Hh. done.
Qed.

Lemma load_header_success importlib imp header info st loader objs :
  importlib "import_header" = Some imp →
  imp (plugin_name header) = Returned loader →
  invoke loader info = Returned objs →
  load_header importlib (header, info) st =
    (LoadState (log st) (dict_setitem (all_objs st) header objs), None).
Proof.
  intros Himp Hl Ho. unfold load_header.
  rewrite (resolve_import_header _ _ _ Himp), Hl, Ho. done.
Qed.

Lemma load_loop_app importlib items1 items2 st :
  load_loop importlib (items1 ++ items2) st =
    match load_loop importlib items1 st with
    | (st1, None) => load_loop importlib items2 st1
    | (st1, Some e) => (st1, Some e)
    end.
Proof.
  revert st. induction items1 as [|item items1 IH]; intros st; [done|].
  simpl. destruct (load_header importlib item st) as [st' [e|]]; auto.
Qed.

(** With every header recoverable the loop runs to its end and
    [all_objs] has been updated with the headers that went through. *)
Lemma load_loop_recoverable importlib imp conf st :
  importlib "import_header" = Some imp →
  Forall (fun item => recoverable imp item = true) conf →
  ∃ st', load_loop importlib conf st = (st', None)
       ∧ all_objs st' = dict_update (all_objs st) (built imp conf).
Proof.
  intros Himp Hrec. revert st.
  induction Hrec as [|[header info] conf Hitem _ IH]; intros st.
  - by exists st.
  - cbn [load_loop]. unfold recoverable in Hitem. cbn [fst snd] in Hitem.
    unfold built. cbn [omap list_omap]. fold (built imp conf).
    unfold header_result. cbn [fst snd mbind outcome_bind obind].
    destruct (imp (plugin_name header)) as [loader|e] eqn:Hl.
    + destruct (invoke loader info) as [objs|e] eqn:Ho.
      * rewrite (load_header_success _ _ _ _ _ _ _ Himp Hl Ho).
        destruct (IH (LoadState (log st)
                        (dict_setitem (all_objs st) header objs)))
          as (st' & -> & Hobjs).
        exists st'. rewrite Hobjs. simpl. by rewrite Ho.
      * rewrite (load_header_build_error _ _ _ _ _ _ _ Himp Hl Ho Hitem).
        destruct (IH (LoadState
                        (log st ++
                           [LogRecord ERROR (build_error_message header) e])
                        (all_objs st)))
          as (st' & -> & Hobjs).
        exists st'. rewrite Hobjs. simpl. by rewrite Ho.
    + rewrite (load_header_import_error _ _ _ _ _ _ Himp Hl Hitem).
      destruct (IH (LoadState
                      (log st ++
                         [LogRecord ERROR (import_error_message header) e])
                      (all_objs st)))
        as (st' & -> & Hobjs).
      exists st'. by rewrite Hobjs.
Qed.

Lemma built_keys_sublist imp conf : sublist (built imp conf).*1 conf.*1.
Proof.
  unfold built. induction conf as [|[header info] conf IH]; simpl; [done|].
  destruct (header_result imp (header, info)); simpl.
  - by apply sublist_skip.
  - by apply sublist_cons.
Qed.

Lemma built_lookup imp conf item :
  NoDup conf.*1 → item ∈ conf →
  dict_get (built imp conf) item.1 =
    match header_result imp item with
    | Returned objs => Some objs
    | Raised _ => None
    end.
Proof.
  intros Hnd Hin. induction conf as [|[header info] conf IH]; [by inversion Hin|].
  simpl in Hnd. apply NoDup_cons in Hnd as [Hfresh Hnd].
  apply elem_of_cons in Hin as [->|Hin]; unfold built; simpl.
  - destruct (header_result imp (header, info)) eqn:Hr; simpl.
    + by rewrite decide_True.
    + apply dict_get_None. intros Hk. apply Hfresh.
      eapply elem_of_sublist; [exact Hk | apply built_keys_sublist].
  - assert (header ≠ item.1) as Hne.
    { intros ->. apply Hfresh. by apply list_elem_of_fmap_2. }
    destruct (header_result imp (header, info)); simpl.
    + rewrite decide_False by done. by apply IH.
    + by apply IH.
Qed.

(** [yaml.load(f)[0]] picks the first document. *)
Lemma load_cons importlib conf more :
  load importlib (conf :: more) =
    match load_loop importlib conf initial_state with
    | (st, None) => (st, Returned PyNone)
    | (st, Some e) => (st, Raised e)
    end.
Proof. reflexivity. Qed.

(** The loop only ever appends to the log, and what it stores and
    whether it is left by an exception do not depend on the log. *)
Lemma load_header_log importlib item objs :
  ∃ emitted objs' r, ∀ lg,
    load_header importlib item (LoadState lg objs) =
      (LoadState (lg ++ emitted) objs', r).
Proof.
  destruct item as [header info]. unfold load_header.
  destruct (resolve importlib header) as [loader|e].
  - destruct (invoke loader info) as [o|e].
    + exists [], (dict_setitem objs header o), None. intros lg.
      by rewrite app_nil_r.
    + destruct (handled_by Exception e).
      * by eexists [_], objs, None.
      * exists [], objs, (Some e). intros lg. by rewrite app_nil_r.
  - destruct (handled_by ImportError e).
    + by eexists [_], objs, None.
    + exists [], objs, (Some e). intros lg. by rewrite app_nil_r.
Qed.

Lemma load_loop_log importlib items objs :
  ∃ emitted objs' r, ∀ lg,
    load_loop importlib items (LoadState lg objs) =
      (LoadState (lg ++ emitted) objs', r).
Proof.
  revert objs. induction items as [|item items IH]; intros objs.
  - exists [], objs, None. intros lg. by rewrite app_nil_r.
  - destruct (load_header_log importlib item objs) as (em1 & objs1 & r1 & H1).
    destruct r1 as [e|].
    + exists em1, objs1, (Some e). intros lg. cbn [load_loop]. by rewrite H1.
    + destruct (IH objs1) as (em2 & objs2 & r2 & H2).
      exists (em1 ++ em2), objs2, r2. intros lg. cbn [load_loop].
      by rewrite H1, H2, app_assoc.
Qed.

(** Two runs over the same items, with importing functions that agree
    away from header [h] and with [h] recoverable in both, store the
    same under every other header and end the same way. *)
Lemma load_loop_agree_except importlib importlib' imp imp' h items st st' :
  importlib "import_header" = Some imp →
  importlib' "import_header" = Some imp' →
  (∀ item, item ∈ items → item.1 ≠ h →
     imp' (plugin_name item.1) = imp (plugin_name item.1)) →
  (∀ item, item ∈ items → item.1 = h →
     recoverable imp item = true ∧ recoverable imp' item = true) →
  (∀ k, k ≠ h → dict_get (all_objs st) k = dict_get (all_objs st') k) →
  (load_loop importlib items st).2 = (load_loop importlib' items st').2
  ∧ ∀ k, k ≠ h →
      dict_get (all_objs (load_loop importlib items st).1) k =
      dict_get (all_objs (load_loop importlib' items st').1) k.
Proof.
  intros Himp Himp'. revert st st'.
  induction items as [|[header info] items IH]; intros st st' Hagree Hh Hst.
  - done.
  - cbn [load_loop]. unfold load_header.
    rewrite (resolve_import_header _ _ _ Himp),
      (resolve_import_header _ _ _ Himp').
    assert (∀ item, item ∈ items → item.1 ≠ h →
              imp' (plugin_name item.1) = imp (plugin_name item.1)) as Hagree'.
    { intros item Hin. apply Hagree. by apply list_elem_of_further. }
    assert (∀ item, item ∈ items → item.1 = h →
              recoverable imp item = true ∧ recoverable imp' item = true)
      as Hh'.
    { intros item Hin. apply Hh. by apply list_elem_of_further. }
    destruct (decide (header = h)) as [->|Hne].
    + destruct (Hh (h, info) (list_elem_of_here _ _) eq_refl) as [Hr Hr'].
      unfold recoverable in Hr, Hr'. cbn [fst snd] in Hr, Hr'.
      assert (∀ (o : Objs) k, k ≠ h →
                dict_get (dict_setitem (all_objs st) h o) k =
                dict_get (all_objs st) k) as Hset.
      { intros o k Hk. apply dict_get_setitem_ne. congruence. }
      assert (∀ (o : Objs) k, k ≠ h →
                dict_get (dict_setitem (all_objs st') h o) k =
                dict_get (all_objs st') k) as Hset'.
      { intros o k Hk. apply dict_get_setitem_ne. congruence. }
      destruct (imp (plugin_name h)) as [l|e];
        [destruct (invoke l info) as [o|e]|]; rewrite ?Hr;
      (destruct (imp' (plugin_name h)) as [l'|e'];
        [destruct (invoke l' info) as [o'|e']|]; rewrite ?Hr');
      apply IH; auto; cbn [all_objs]; intros k Hk;
      rewrite ?Hset, ?Hset' by done; auto.
    + pose proof (Hagree (header, info) (list_elem_of_here _ _) Hne) as Heq.
      cbn [fst] in Heq. rewrite Heq.
      destruct (imp (plugin_name header)) as [l|e].
      * destruct (invoke l info) as [o|e].
        -- apply IH; auto. cbn [all_objs]. intros k Hk.
           destruct (decide (header = k)) as [->|Hhk].
           ++ by rewrite !dict_get_setitem_eq.
           ++ rewrite !dict_get_setitem_ne by done. auto.
        -- destruct (handled_by Exception e); [apply IH; auto|].
           split; [done | auto].
      * destruct (handled_by ImportError e); [apply IH; auto|].
        split; [done | auto].
Qed.
End Load.

End LoadConfFacts.

(** ** The dispatch claims *)

Module LoadConfSpec.
Import Python LoadConf PythonFacts LoadConfFacts Examples.

Section Claims.
Context {Info Objs : Type}.
Implicit Types (importlib : module_attrs Info Objs) (imp : importer Info Objs)
  (conf : pydict Info) (st : load_state Objs).

(** C1. The claim: a header whose plugin cannot be resolved is logged
    and skipped, and no exception leaves [load]. The code asks
    [importlib] for [import_header], which the standard library does
    not define: on any document with at least one header the lookup
    raises [AttributeError] inside the first [try], [except ImportError]
    does not match it, and the exception leaves [load] at the first
    header with nothing logged and nothing stored. *)
Theorem load_first_header_raises_attribute_error
    (import_module : importer Info Objs) header info rest more :
  load (stdlib_importlib import_module) (((header, info) :: rest) :: more) =
    (initial_state,
     Raised (PyExc AttributeError
               "module 'importlib' has no attribute 'import_header'")).
Proof.
  rewrite (load_cons _ ((header, info) :: rest) more).
  cbn [load_loop]. unfold load_header. by rewrite resolve_stdlib.
Qed.

(** C2. The claim: [load] completes and returns a mapping in which every
    header of the document is present. With the standard [importlib],
    whatever plugins are installed, a document with at least one header
    makes the call raise [AttributeError] (the lookup of
    [import_header]), and a document with no header makes it evaluate to
    [None]: the function has no [return], against its docstring. In
    both cases the mapping [all_objs] it had built holds no header. *)
Theorem load_builds_and_returns_no_mapping
    (import_module : importer Info Objs) conf more :
  (load (stdlib_importlib import_module) (conf :: more)).2 =
    match conf with
    | [] => Returned PyNone
    | _ :: _ =>
        Raised (PyExc AttributeError
                  "module 'importlib' has no attribute 'import_header'")
    end
  ∧ all_objs (load (stdlib_importlib import_module) (conf :: more)).1 = [].
Proof.
  rewrite (load_cons _ conf more). destruct conf as [|[header info] rest].
  - done.
  - cbn [load_loop]. unfold load_header. by rewrite resolve_stdlib.
Qed.

End Claims.

(** The two plugins installed, one document with both headers: the
    call ends at [motors], the plugin of [broken] is not asked. *)
Example load_motors_then_broken :
  load importlib [[("motors", 1%Z); ("broken", 2%Z)]] =
    (LoadState [] [],
     Raised (PyExc AttributeError
               "module 'importlib' has no attribute 'import_header'")).
Proof. vm_compute. reflexivity. Qed.

Example load_document_without_header :
  load importlib [[]] = (LoadState [] [], Returned PyNone).
Proof. vm_compute. reflexivity. Qed.

End LoadConfSpec.

(** ** Facts about strings and paths *)

Module StringFacts.
Import Python Cache.

Lemma app_cons c (a b : string) : String c a +:+ b = String c (a +:+ b).
Proof. reflexivity. Qed.

Lemma app_nil_l (a : string) : "" +:+ a = a.
Proof. reflexivity. Qed.

Lemma app_nil_r (a : string) : a +:+ "" = a.
Proof. induction a as [|c a IH]; [done|]. by rewrite app_cons, IH. Qed.

Lemma app_assoc (a b c : string) : (a +:+ b) +:+ c = a +:+ b +:+ c.
Proof. induction a as [|x a IH]; [done|]. by rewrite !app_cons, IH. Qed.

Lemma contains_char_app c (a b : string) :
  contains_char c (a +:+ b) = contains_char c a || contains_char c b.
Proof.
  induction a as [|x a IH]; [done|].
  rewrite app_cons. cbn [contains_char]. by rewrite IH, orb_assoc.
Qed.

Lemma contains_char_cons c x (a : string) :
  contains_char c (String x a) = false ↔ x ≠ c ∧ contains_char c a = false.
Proof.
  cbn [contains_char]. rewrite orb_false_iff, bool_decide_eq_false. done.
Qed.

Section Split.
Variable sep : ascii.

Lemma split_nonempty s : split sep s ≠ [].
Proof.
  destruct s as [|c s]; [done|]. cbn [split].
  destruct (decide (c = sep)); [done|]. by destruct (split sep s).
Qed.

Lemma split_free s : contains_char sep s = false → split sep s = [s].
Proof.
  induction s as [|c s IH]; [done|].
  intros [Hc Hs]%contains_char_cons. cbn [split].
  rewrite decide_False by done. by rewrite IH.
Qed.

Lemma split_app_sep x r :
  contains_char sep x = false →
  split sep (x +:+ String sep r) = x :: split sep r.
Proof.
  induction x as [|c x IH].
  - intros _. rewrite app_nil_l. cbn [split]. by rewrite decide_True.
  - intros [Hc Hx]%contains_char_cons. rewrite app_cons. cbn [split].
    rewrite decide_False by done. by rewrite IH.
Qed.

Lemma split_app_sep_any x r :
split sep (x +:+ String sep r) = split sep x ++ split sep r.
Proof.
induction x as [|c x IH].
- rewrite app_nil_l. cbn [split]. by rewrite decide_True.
- rewrite app_cons. cbn [split]. destruct (decide (c = sep)) as [->|Hne].
  + by rewrite IH.
  + rewrite IH. destruct (split sep x) as [|f fs] eqn:Hx; [|done].
    by apply split_nonempty in Hx.
Qed.

Lemma split_join names :
  names ≠ [] →
  Forall (fun x => contains_char sep x = false) names →
  split sep (join (String sep "") names) = names.
Proof.
  intros Hne Hfree. induction Hfree as [|x names Hx Hfree IH]; [done|].
  destruct names as [|y names].
  - by apply split_free.
  - cbn [join]. rewrite app_cons, app_nil_l, split_app_sep by done.
    f_equal. by apply IH.
Qed.

(** The fields of a split are free of the separator, and of every
    character the string is free of. *)
Lemma split_fields_free s :
  Forall (fun x => contains_char sep x = false) (split sep s).
Proof.
  induction s as [|c s IH]; [by repeat constructor|].
  cbn [split]. destruct (decide (c = sep)) as [->|Hne].
  - by constructor.
  - destruct (split sep s) as [|f fs].
    + repeat constructor. by apply contains_char_cons.
    + apply Forall_cons in IH as [Hf Hfs]. constructor; [|done].
      by apply contains_char_cons.
Qed.

Lemma split_fields_free_of c s :
  contains_char c s = false →
  Forall (fun x => contains_char c x = false) (split sep s).
Proof.
  induction s as [|x s IH]; [by repeat constructor|].
  intros [Hx Hs]%contains_char_cons. cbn [split].
  specialize (IH Hs). destruct (decide (x = sep)) as [->|Hne].
  - by constructor.
  - destruct (split sep s) as [|f fs].
    + repeat constructor. by apply contains_char_cons.
    + apply Forall_cons in IH as [Hf Hfs]. constructor; [|done].
      by apply contains_char_cons.
Qed.
End Split.

End StringFacts.

(** ** Facts about [LoadCache] *)

Module CacheFacts.
Import Python Cache PythonFacts StringFacts.

Lemma norm_index_last {A} (x : A) l :
  norm_index (x :: l) (-1) = Some (length l).
Proof.
  unfold norm_index. cbn [length].
  replace (-1 + Z.of_nat (S (length l)))%Z with (Z.of_nat (length l)) by lia.
  change (-1 <? 0)%Z with true. cbv iota.
  rewrite (proj2 (Z.leb_le 0 _)) by lia.
  rewrite (proj2 (Z.ltb_lt _ _)) by lia.
  by rewrite Nat2Z.id.
Qed.

Lemma list_getitem_first {A} (x : A) l : list_getitem (x :: l) 0 = Returned x.
Proof.
  unfold list_getitem, norm_index. cbn [length].
  change (0 <? 0)%Z with false. cbv iota.
  change (0 <=? 0)%Z with true.
  rewrite (proj2 (Z.ltb_lt _ _)) by lia. done.
Qed.

Lemma with_txt_nonempty segs : segs ≠ [] → Spec.with_txt segs ≠ [].
Proof. destruct segs as [|x [|y l]]; done. Qed.

Lemma with_txt_insert l x y :
  (x :: l) !! length l = Some y →
  <[length l := y +:+ ".txt"]> (x :: l) = Spec.with_txt (x :: l).
Proof.
  revert x. induction l as [|z l IH]; intros x.
  - by intros [= ->].
  - intros Hlast. cbn [length] in *.
    change (x :: <[length l := y +:+ ".txt"]> (z :: l)
            = x :: Spec.with_txt (z :: l)).
    f_equal. by apply IH.
Qed.

(** [parts[-1] = parts[-1] + '.txt'] on the split module name: nothing
    can raise, each segment stays, the last one gets the suffix. *)
Lemma txt_parts_eq module :
  txt_parts module = Returned (Spec.with_txt (split "." module)).
Proof.
  unfold txt_parts.
  destruct (split "." module) as [|x l] eqn:Hs; [by apply split_nonempty in Hs|].
  destruct (lookup_lt_is_Some_2 (x :: l) (length l)) as [y Hy];
    [cbn [length]; lia|].
  assert (list_getitem (x :: l) (-1) = Returned y) as ->.
  { unfold list_getitem. by rewrite norm_index_last, Hy. }
  rewrite bind_Returned. unfold list_setitem.
  by rewrite norm_index_last, (with_txt_insert l x y).
Qed.

(** The first element after the renaming. *)
Lemma with_txt_first pkg seg rest :
  list_getitem (Spec.with_txt (pkg :: seg :: rest)) 0 = Returned pkg.
Proof. apply list_getitem_first. Qed.

Lemma append_entries_concat text d :
  append_entries text d = text +:+ entries_text d.
Proof.
  revert text. induction d as [|[name obj] d IH]; intros text.
  - by rewrite app_nil_r.
  - unfold append_entries, entries_text in *.
    cbn [foldl fmap list_fmap concat_all].
    by rewrite IH, app_assoc.
Qed.

Lemma filter_keep_plain names :
  Forall plain_name names →
  filter (fun x => Is_true (keep_name x)) names = names.
Proof.
  induction 1 as [|y l (Hne & Hdot & _) _ IH]; [done|].
  rewrite filter_cons_True; [by rewrite IH|].
  unfold keep_name. rewrite !bool_decide_false by done. done.
Qed.

Lemma Path_join_plain names :
  Forall plain_name names → Path (join "/" names) = MkPath "" names.
Proof.
  intros Hplain. destruct names as [|x names]; [done|].
  assert (split_root (join "/" (x :: names)) = ("", join "/" (x :: names)))
    as Hroot.
  { apply Forall_cons in Hplain as [(Hne & _ & Hfree) _].
    destruct x as [|c x]; [done|]. apply contains_char_cons in Hfree as [Hc _].
    unfold split_root.
    assert (starts_with_slash (join "/" (String c x :: names)) = false) as ->;
      [|done].
    destruct names; cbn [join]; rewrite ?app_cons; cbn [starts_with_slash];
      by apply bool_decide_eq_false. }
  unfold Path. rewrite Hroot. f_equal.
  rewrite split_join; [by apply filter_keep_plain | done |].
  eapply Forall_impl; [exact Hplain|]. by intros y (_ & _ & ?).
Qed.

Lemma with_txt_plain segs :
  Forall (fun x => contains_char "." x = false) segs →
  Forall (fun x => contains_char "/" x = false) segs →
  leading_segments_nonempty segs = true →
  Forall plain_name (Spec.with_txt segs).
Proof.
  induction segs as [|x segs IH]; intros Hdot Hslash Hlead; [constructor|].
  apply Forall_cons in Hdot as [Hx Hdot].
  apply Forall_cons in Hslash as [Hxs Hslash].
  destruct segs as [|y segs].
  - repeat constructor.
    + intros Heq. apply (f_equal (contains_char "t")) in Heq.
      rewrite contains_char_app in Heq. cbn in Heq.
      by rewrite orb_true_r in Heq.
    + intros Heq. apply (f_equal (contains_char "t")) in Heq.
      rewrite contains_char_app in Heq. cbn in Heq.
      by rewrite orb_true_r in Heq.
    + rewrite contains_char_app, Hxs. done.
  - cbn [leading_segments_nonempty] in Hlead.
    apply andb_true_iff in Hlead as [Hne Hlead].
    apply negb_true_iff, bool_decide_eq_false in Hne.
    change (Forall plain_name (x :: Spec.with_txt (y :: segs))).
    constructor; [|by apply IH].
    split_and!; [done | | done]. intros ->. done.
Qed.

(** When no segment before the last is empty and the name has no slash,
    the path is the directory followed by the renamed segments. *)
Lemma manifest_path_plain dir module :
  contains_char "/" module = false →
  leading_segments_nonempty (split "." module) = true →
  manifest_path dir (Spec.with_txt (split "." module)) =
    Spec.manifest_path dir module.
Proof.
  intros Hslash Hlead. unfold manifest_path, Spec.manifest_path.
  rewrite Path_join_plain.
  - unfold truediv. by rewrite decide_True.
  - apply with_txt_plain; [apply split_fields_free | | done].
    by apply split_fields_free_of.
Qed.


Lemma self_objs_dict_eq w self ns hutch_dir module d :
  heap w !! self = Some (LoadCacheObj ns hutch_dir module) →
  heap w !! ns = Some (Namespace d) →
  self_objs_dict self w = Returned (ns, d).
Proof. intros Hself Hns. unfold self_objs_dict. by rewrite Hself, Hns. Qed.

(** What [__init__] leaves behind. *)
Lemma init_returned module hutch_dir objs w self w' :
  LoadCache_init module hutch_dir objs w = (Returned self, w') →
  ∃ ns,
    ns ≠ self
    ∧ heap w' =
        <[self := LoadCacheObj ns hutch_dir module]>
          (<[ns := Namespace (IterableNamespace objs)]> (heap w))
    ∧ sys_modules w' =
        <["hutch_python.db" := ns]> (<[module := ns]> (sys_modules w))
    ∧ files w' = files w
    ∧ open_error w' = open_error w.
Proof.
  unfold LoadCache_init, bind_kwargs.
  destruct (List.find _ objs); [done|]. intros [= <- <-].
  eexists. split_and!; try reflexivity.
  intros Heq.
  pose proof (is_fresh ({[fresh (dom (heap w))]} ∪ dom (heap w))) as Hfresh.
  rewrite Heq in Hfresh. apply Hfresh. set_solver.
Qed.

Lemma init_heap module hutch_dir objs w self w' :
  LoadCache_init module hutch_dir objs w = (Returned self, w') →
  ∃ ns,
    heap w' !! self = Some (LoadCacheObj ns hutch_dir module)
    ∧ heap w' !! ns = Some (Namespace (IterableNamespace objs))
    ∧ sys_modules w' !! module = Some ns
    ∧ sys_modules w' !! "hutch_python.db" = Some ns.
Proof.
  intros (ns & Hne & Hheap & Hmods & _)%init_returned. exists ns.
  rewrite Hheap, Hmods. split_and!.
  - by rewrite lookup_insert_eq.
  - rewrite lookup_insert_ne by done. by rewrite lookup_insert_eq.
  - rewrite lookup_insert. case_decide; [done|]. by rewrite lookup_insert_eq.
  - by rewrite lookup_insert_eq.
Qed.

(** A cache and its namespace are two objects. *)
Lemma cache_ne_namespace w self ns hutch_dir module d :
  heap w !! self = Some (LoadCacheObj ns hutch_dir module) →
  heap w !! ns = Some (Namespace d) →
  ns ≠ self.
Proof. intros Hself Hns ->. congruence. Qed.

Lemma call_returned w self ns hutch_dir module d kw :
  heap w !! self = Some (LoadCacheObj ns hutch_dir module) →
  heap w !! ns = Some (Namespace d) →
  bind_kwargs ["self"] kw = Returned kw →
  LoadCache_call self kw w =
    (Returned (),
     set_heap (<[ns := Namespace (dict_update d kw)]> (heap w)) w).
Proof.
  intros Hself Hns Hkw. unfold LoadCache_call.
  by rewrite Hkw, (self_objs_dict_eq _ _ _ _ _ _ Hself Hns).
Qed.

(** [add] never touches the cache object itself, whatever it returns;
    the namespace stays a namespace. *)
Lemma call_keeps_cache w self ns hutch_dir module d kw :
  heap w !! self = Some (LoadCacheObj ns hutch_dir module) →
  heap w !! ns = Some (Namespace d) →
  heap (LoadCache_call self kw w).2 !! self =
    Some (LoadCacheObj ns hutch_dir module)
  ∧ ∃ d', heap (LoadCache_call self kw w).2 !! ns = Some (Namespace d').
Proof.
  intros Hself Hns. unfold LoadCache_call.
  destruct (bind_kwargs ["self"] kw) as [kw'|e]; [|by eauto].
  rewrite (self_objs_dict_eq _ _ _ _ _ _ Hself Hns). cbn [snd set_heap heap].
  split.
  - rewrite lookup_insert_ne; [done|].
    by eapply cache_ne_namespace.
  - eexists. by rewrite lookup_insert_eq.
Qed.

Lemma add_all_keeps_cache calls w self ns hutch_dir module d :
  heap w !! self = Some (LoadCacheObj ns hutch_dir module) →
  heap w !! ns = Some (Namespace d) →
  heap (add_all self calls w) !! self = Some (LoadCacheObj ns hutch_dir module)
  ∧ ∃ d', heap (add_all self calls w) !! ns = Some (Namespace d').
Proof.
  revert w d. induction calls as [|kw calls IH]; intros w d Hself Hns.
  - by eauto.
  - destruct (call_keeps_cache w self ns hutch_dir module d kw Hself Hns)
      as (Hself' & d' & Hns').
    exact (IH _ d' Hself' Hns').
Qed.

(** [write_file] on a cache with a directory: the one thing that can
    raise is opening the file. *)
Lemma write_file_with_root w self ns dir module d now :
  heap w !! self = Some (LoadCacheObj ns (Some dir) module) →
  heap w !! ns = Some (Namespace d) →
  ∃ first,
    list_getitem (Spec.with_txt (split "." module)) 0 = Returned first
    ∧ write_file self now w =
        let db_path :=
          path_str (manifest_path dir (Spec.with_txt (split "." module))) in
        match open_error w db_path with
        | Some e => (Raised e, w)
        | None =>
            (Returned (),
             World (heap w) (sys_modules w)
               (<[db_path :=
                    format_header first +:+ body_before_time +:+ now
                      +:+ body_after_time +:+ entries_text d]> (files w))
               (open_error w))
        end.
Proof.
  intros Hself Hns.
  destruct (Spec.with_txt (split "." module)) as [|first parts] eqn:Hparts.
  { apply with_txt_nonempty in Hparts; [done | apply split_nonempty]. }
  exists first. split; [apply list_getitem_first|].
  unfold write_file. rewrite Hself, txt_parts_eq, Hparts, bind_Returned.
  unfold manifest_head. rewrite list_getitem_first, !bind_Returned.
  rewrite (self_objs_dict_eq _ _ _ _ _ _ Hself Hns), bind_Returned.
  cbn [snd]. rewrite append_entries_concat. unfold format_body.
  by rewrite !app_assoc.
Qed.


(** Without a namespace behind the cache the call raises. *)
Lemma write_file_needs_namespace w self ns dir module now :
  heap w !! self = Some (LoadCacheObj ns (Some dir) module) →
  (∀ d, heap w !! ns ≠ Some (Namespace d)) →
  ∃ e, write_file self now w = (Raised e, w).
Proof.
  intros Hself Hns.
  destruct (Spec.with_txt (split "." module)) as [|first parts] eqn:Hparts.
  { apply with_txt_nonempty in Hparts; [done | apply split_nonempty]. }
  unfold write_file. rewrite Hself, txt_parts_eq, Hparts, bind_Returned.
  unfold manifest_head. rewrite list_getitem_first, !bind_Returned.
  unfold self_objs_dict. rewrite Hself.
  destruct (heap w !! ns) as [[d|]|]; [by destruct (Hns d) | by eexists..].
Qed.

Lemma nl_app (x : string) : nl +:+ x = String "010" x.
Proof. reflexivity. Qed.

Lemma format_header_ends_with_newline pkg :
  ∃ hd, format_header pkg = hd +:+ nl.
Proof. unfold format_header. rewrite <-!app_assoc. by eexists. Qed.

(** The lines of a manifest: those of the header, the line with the
    time, and the rest; only the one line depends on the time. *)
Lemma manifest_lines first d :
  ∃ head rest, ∀ now,
    contains_char "010" now = false →
    Spec.lines (format_header first +:+ body_before_time +:+ now
                  +:+ body_after_time +:+ entries_text d) =
      head ++ (body_before_time +:+ now) :: rest.
Proof.
  destruct (format_header_ends_with_newline first) as [hd ->].
  exists (split "010" hd),
    (split "010" ("with the following objects:" +:+ nl +:+ nl
                    +:+ entries_text d)).
  intros now Hnow. unfold Spec.lines, body_after_time.
  rewrite !app_assoc, !nl_app, <-(app_assoc body_before_time now).
  rewrite !split_app_sep_any. f_equal.
  rewrite split_free; [done|]. by rewrite contains_char_app, Hnow.
Qed.

End CacheFacts.

(** ** The cache claims *)

Module CacheSpec.
Import Python Cache PythonFacts StringFacts CacheFacts Examples.

(** C4. After [LoadCache(module, hutch_dir, **objs)] the entry
    [sys.modules[module]] and the entry under the alias of the owning
    package, [sys.modules['hutch_python.db']], hold the same reference,
    to the namespace seeded with [objs]; an update made through either
    entry is what the other entry shows afterwards. *)
Theorem both_entries_share_the_namespace module hutch_dir objs w self w' :
  LoadCache_init module hutch_dir objs w = (Returned self, w') →
  ∃ ns,
    sys_modules w' !! module = Some ns
    ∧ sys_modules w' !! "hutch_python.db" = Some ns
    ∧ heap w' !! ns = Some (Namespace (IterableNamespace objs))
    ∧ heap w' !! self = Some (LoadCacheObj ns hutch_dir module)
    ∧ ∀ kw, ∃ w1 w2,
        module_update module kw w' = Some w1
        ∧ module_dict "hutch_python.db" w1 =
            Some (dict_update (IterableNamespace objs) kw)
        ∧ module_update "hutch_python.db" kw w' = Some w2
        ∧ module_dict module w2 =
            Some (dict_update (IterableNamespace objs) kw).
Proof.
  intros (ns & Hself & Hns & Hmod & Hdb)%init_heap.
  exists ns. split_and!; try done.
  intros kw. unfold module_update, module_dict. rewrite Hmod, Hdb, Hns.
  do 2 eexists. split_and!; try reflexivity.
  - cbn [set_heap sys_modules heap]. by rewrite Hdb, lookup_insert_eq.
  - cbn [set_heap sys_modules heap]. by rewrite Hmod, lookup_insert_eq.
Qed.

Lemma both_entries_share_the_namespace_witness :
  sys_modules (started "xpp.db" None) !! "xpp.db" = Some the_namespace
  ∧ sys_modules (started "xpp.db" None) !! "hutch_python.db"
    = Some the_namespace.
Proof.
  destruct (both_entries_share_the_namespace "xpp.db" None
              [("x", PyInt 5); ("robot", robot)] bare the_cache
              (started "xpp.db" None))
    as (ns & H1 & H2 & _).
  - vm_compute. reflexivity.
  - assert (ns = the_namespace) as ->.
    { assert (Some ns = Some the_namespace) as [= ->]; [|done].
      rewrite <-H1. vm_compute. reflexivity. }
    split; [exact H1 | exact H2].
Defined.

(** C5. On any cache, [add(a=1)] then [add(b=2)] leave the namespace
    with [a == 1] and [b == 2]; [add(a=3)] after them gives [a == 3] and
    [b == 2], with the same names in the same order as before that call
    (so no entry is duplicated), and every name other than [a] and [b]
    keeps the value it had from the start. *)
Theorem add_accumulates_and_overwrites w self ns hutch_dir module d :
  heap w !! self = Some (LoadCacheObj ns hutch_dir module) →
  heap w !! ns = Some (Namespace d) →
  NoDup (dict_keys d) →
  ∃ w1 w2 w3 d2 d3,
    LoadCache_call self [("a", PyInt 1)] w = (Returned (), w1)
    ∧ LoadCache_call self [("b", PyInt 2)] w1 = (Returned (), w2)
    ∧ LoadCache_call self [("a", PyInt 3)] w2 = (Returned (), w3)
    ∧ heap w2 !! ns = Some (Namespace d2)
    ∧ dict_get d2 "a" = Some (PyInt 1)
    ∧ dict_get d2 "b" = Some (PyInt 2)
    ∧ heap w3 !! ns = Some (Namespace d3)
    ∧ dict_get d3 "a" = Some (PyInt 3)
    ∧ dict_get d3 "b" = Some (PyInt 2)
    ∧ dict_keys d3 = dict_keys d2
    ∧ NoDup (dict_keys d3)
    ∧ ∀ k, k ≠ "a" → k ≠ "b" → dict_get d3 k = dict_get d k.
Proof.
  intros Hself Hns Hnd.
  pose proof (cache_ne_namespace _ _ _ _ _ _ Hself Hns) as Hne.
  set (d1 := dict_setitem d "a" (PyInt 1)).
  set (d2 := dict_setitem d1 "b" (PyInt 2)).
  set (d3 := dict_setitem d2 "a" (PyInt 3)).
  set (w1 := set_heap (<[ns := Namespace d1]> (heap w)) w).
  set (w2 := set_heap (<[ns := Namespace d2]> (heap w1)) w1).
  set (w3 := set_heap (<[ns := Namespace d3]> (heap w2)) w2).
  assert (heap w1 !! self = Some (LoadCacheObj ns hutch_dir module)) as Hself1.
  { unfold w1. cbn [set_heap heap]. by rewrite lookup_insert_ne. }
  assert (heap w1 !! ns = Some (Namespace d1)) as Hns1.
  { unfold w1. cbn [set_heap heap]. by rewrite lookup_insert_eq. }
  assert (heap w2 !! self = Some (LoadCacheObj ns hutch_dir module)) as Hself2.
  { unfold w2. cbn [set_heap heap]. by rewrite lookup_insert_ne. }
  assert (heap w2 !! ns = Some (Namespace d2)) as Hns2.
  { unfold w2. cbn [set_heap heap]. by rewrite lookup_insert_eq. }
  assert (dict_get d2 "a" = Some (PyInt 1)) as Ha2.
  { unfold d2. rewrite dict_get_setitem_ne by done.
    apply dict_get_setitem_eq. }
  exists w1, w2, w3, d2, d3. split_and!.
  - by rewrite (call_returned _ _ _ _ _ _ _ Hself Hns).
  - by rewrite (call_returned _ _ _ _ _ _ _ Hself1 Hns1).
  - by rewrite (call_returned _ _ _ _ _ _ _ Hself2 Hns2).
  - done.
  - done.
  - apply dict_get_setitem_eq.
  - unfold w3. cbn [set_heap heap]. by rewrite lookup_insert_eq.
  - apply dict_get_setitem_eq.
  - unfold d3. rewrite dict_get_setitem_ne by done. apply dict_get_setitem_eq.
  - unfold d3. rewrite dict_keys_setitem. rewrite bool_decide_true; [done|].
    apply dec_stable. intros Hnin. apply dict_get_None in Hnin. congruence.
  - by do 3 apply dict_setitem_NoDup.
  - intros k Hka Hkb. unfold d3, d2, d1.
    by rewrite !dict_get_setitem_ne.
Qed.

Lemma add_accumulates_and_overwrites_witness :
  ∃ w3 d3,
    LoadCache_call the_cache [("a", PyInt 3)]
      (add_all the_cache [[("a", PyInt 1)]; [("b", PyInt 2)]]
         (started "xpp.db" None)) = (Returned (), w3)
    ∧ heap w3 !! the_namespace = Some (Namespace d3)
    ∧ dict_get d3 "a" = Some (PyInt 3)
    ∧ dict_get d3 "b" = Some (PyInt 2)
    ∧ dict_get d3 "x" = Some (PyInt 5).
Proof.
  destruct (add_accumulates_and_overwrites (started "xpp.db" None)
              the_cache the_namespace None "xpp.db"
              [("x", PyInt 5); ("robot", robot)])
    as (w1 & w2 & w3 & d2 & d3 & H1 & H2 & H3 & _ & _ & _ & Hns & Ha & Hb
        & _ & _ & Hx).
  - vm_compute. reflexivity.
  - vm_compute. reflexivity.
  - apply (bool_decide_unpack _). vm_compute. exact I.
  - exists w3, d3. unfold add_all. cbn [foldl]. rewrite H1. cbn [snd].
    rewrite H2. cbn [snd]. split_and!; [exact H3 | exact Hns | exact Ha
      | exact Hb | by rewrite Hx].
Defined.

(** C8. On a cache constructed without a directory, after any calls of
    [add], [write_file] returns and the whole state (heap, modules,
    files) is what it was. *)
Theorem write_file_without_root_is_noop module objs w0 self w calls now :
  LoadCache_init module None objs w0 = (Returned self, w) →
  write_file self now (add_all self calls w)
    = (Returned (), add_all self calls w).
Proof.
  intros (ns & Hself & Hns & _)%init_heap.
  destruct (add_all_keeps_cache calls _ _ _ _ _ _ Hself Hns) as [Hself' _].
  unfold write_file. by rewrite Hself'.
Qed.

Lemma write_file_without_root_is_noop_witness :
  write_file the_cache now1
    (add_all the_cache [[("a", PyInt 1)]] (started "xpp.db" None))
  = (Returned (),
     add_all the_cache [[("a", PyInt 1)]] (started "xpp.db" None)).
Proof.
  apply (write_file_without_root_is_noop "xpp.db"
           [("x", PyInt 5); ("robot", robot)] bare the_cache
           (started "xpp.db" None) [[("a", PyInt 1)]] now1).
  vm_compute. reflexivity.
Defined.

(** C10. Whatever [write_file] does, the heap (so the cache's
    attributes and its namespace with names, values and order) and
    [sys.modules] are the same after the call; the files are the same
    too, or differ by the one file at the manifest path. *)
Theorem write_file_frame self now w :
  heap (write_file self now w).2 = heap w
  ∧ sys_modules (write_file self now w).2 = sys_modules w
  ∧ open_error (write_file self now w).2 = open_error w
  ∧ (files (write_file self now w).2 = files w
     ∨ ∃ ns dir module text,
         heap w !! self = Some (LoadCacheObj ns (Some dir) module)
         ∧ files (write_file self now w).2 =
             <[path_str (manifest_path dir (Spec.with_txt (split "." module)))
                 := text]> (files w)).
Proof.
  unfold write_file.
  destruct (heap w !! self) as [[d|ns [dir|] module]|] eqn:Hself; cbn [snd];
    try by auto.
  rewrite txt_parts_eq, bind_Returned.
  destruct (manifest_head _ now) as [text|e]; [|by auto].
  rewrite bind_Returned.
  destruct (self_objs_dict self w) as [nd|e]; [|by auto].
  rewrite !bind_Returned.
  change (mret ?x) with (Returned x). cbv beta iota.
  destruct (open_error w _); [by auto|]. cbn [snd heap sys_modules files].
  split_and!; try done. right. by eexists ns, dir, module, _.
Qed.

(** C6, as stated, fails. With the module name [.db] the joined string
    is [/db.txt], an absolute path, and joining it to the directory drops
    the directory: the one file written is [/db.txt], outside the
    manifest root, and nothing is written where the claim puts it. *)
Lemma manifest_path_can_leave_the_root :
  path_str (Spec.manifest_path hutch_root ".db")
    = "/reg/g/pcds/pyps/xpp//db.txt"
  ∧ (map_to_list (files (written ".db"))).*1 = ["/db.txt"]
  ∧ files (written ".db") !! path_str (Spec.manifest_path hutch_root ".db")
    = None
  ∧ files (written ".db") !! "/reg/g/pcds/pyps/xpp/db.txt" = None.
Proof. vm_compute. done. Qed.

(** C6, amended. When the module name has no slash and no empty segment
    before its last one, the manifest path is the directory followed by
    the segments of the name, the last one with [.txt] appended; and
    when that file can be opened for writing, [write_file] returns and
    the content at the path is the newly built text, whatever the file
    held before. *)
Theorem manifest_is_written_below_the_root w self ns dir module d now :
  heap w !! self = Some (LoadCacheObj ns (Some dir) module) →
  heap w !! ns = Some (Namespace d) →
  contains_char "/" module = false →
  leading_segments_nonempty (split "." module) = true →
  open_error w (path_str (Spec.manifest_path dir module)) = None →
  manifest_path dir (Spec.with_txt (split "." module))
    = Spec.manifest_path dir module
  ∧ ∃ first,
      list_getitem (Spec.with_txt (split "." module)) 0 = Returned first
      ∧ write_file self now w =
          (Returned (),
           World (heap w) (sys_modules w)
             (<[path_str (Spec.manifest_path dir module) :=
                  format_header first +:+ body_before_time +:+ now
                    +:+ body_after_time +:+ entries_text d]> (files w))
             (open_error w))
      ∧ files (write_file self now w).2
          !! path_str (Spec.manifest_path dir module) =
          Some (format_header first +:+ body_before_time +:+ now
                  +:+ body_after_time +:+ entries_text d).
Proof.
  intros Hself Hns Hslash Hlead Hopen.
  pose proof (manifest_path_plain dir module Hslash Hlead) as Hpath.
  split; [done|].
  destruct (write_file_with_root w self ns dir module d now Hself Hns)
    as (first & Hfirst & Hwrite).
  exists first. cbv zeta in Hwrite. rewrite Hpath, Hopen in Hwrite.
  split; [done|]. split; [done|].
  rewrite Hwrite. cbn [snd files]. by rewrite lookup_insert_eq.
Qed.

Lemma manifest_is_written_below_the_root_witness :
  manifest_path hutch_root (Spec.with_txt (split "." "xpp.db"))
    = MkPath "/" ["reg"; "g"; "pcds"; "pyps"; "xpp"; "xpp"; "db.txt"].
Proof.
  refine (eq_trans
            (proj1 (manifest_is_written_below_the_root
                      (started "xpp.db" (Some hutch_root))
                      the_cache the_namespace hutch_root "xpp.db"
                      [("x", PyInt 5); ("robot", robot)] now1 _ _ _ _ _))
            _);
    vm_compute; reflexivity.
Defined.

(** C7, as stated, fails. For the entries [x = 5] and [robot] the file
    has no line made of the name padded to 20 columns, a space and the
    type name, whether the fill is put before the name or after it; the
    line of [x] is the name followed by 19 spaces of fill, a space, and
    [<class 'int'>]. And for a module name of one segment the header
    names that segment with [.txt] appended. *)
Lemma manifest_lines_are_not_left_padded :
  ∃ text,
    files (written "xpp.db") !! "/reg/g/pcds/pyps/xpp/xpp/db.txt" = Some text
    ∧ Spec.entry_line "x" (PyInt 5) = "                   x int"
    ∧ (Spec.entry_line "x" (PyInt 5) ∉ Spec.lines text)
    ∧ (Spec.entry_line "robot" robot ∉ Spec.lines text)
    ∧ (Spec.entry_line_fill_right "x" (PyInt 5) ∉ Spec.lines text)
    ∧ (Spec.entry_line_fill_right "robot" robot ∉ Spec.lines text)
    ∧ Spec.lines text !! 11%nat = Some "x                    <class 'int'>"
    ∧ Spec.lines text !! 12%nat =
        Some "robot                <class 'pcdsdevices.sim.Robot'>"
    ∧ manifest_head (Spec.with_txt (split "." "db")) now1 =
        Returned (format_header "db.txt" +:+ format_body now1).
Proof.
  eexists. split; [vm_compute; reflexivity|].
  split_and!; try (vm_compute; reflexivity);
    apply (bool_decide_unpack _); vm_compute; exact I.
Qed.

(** C7, amended. For a module name of at least two segments, when the
    file can be opened, the text written is the header formatted with the
    first segment, the line [hutch-python last loaded on <now>], the line
    [with the following objects:], an empty line, and then for each
    entry of the namespace, in order, its name flush left in a field of
    20 columns (filled with spaces on the right, a longer name kept
    whole), a space, the value's class as [format] prints it, and a
    newline. A class whose metaclass is [type] is printed as
    [<class 'module.qualname'>], the module left out for a built-in; a
    class whose metaclass prints it otherwise appears as that metaclass
    prints it. *)
Theorem manifest_text_layout w self ns dir module d now pkg seg rest :
  heap w !! self = Some (LoadCacheObj ns (Some dir) module) →
  heap w !! ns = Some (Namespace d) →
  split "." module = pkg :: seg :: rest →
  open_error w
    (path_str (manifest_path dir (Spec.with_txt (split "." module)))) = None →
  (write_file self now w).1 = Returned ()
  ∧ files (write_file self now w).2
      !! path_str (manifest_path dir (Spec.with_txt (split "." module))) =
    Some (format_header pkg
          +:+ "hutch-python last loaded on " +:+ now +:+ nl
          +:+ "with the following objects:" +:+ nl +:+ nl
          +:+ concat_all
                ((fun item =>
                    ljust 20 item.1 +:+ " " +:+ format_class (class_of item.2)
                      +:+ nl) <$> d))
  ∧ Forall (fun item =>
              format_class (class_of item.2) =
                match cls_meta (class_of item.2) with
                | type_ => "<class '" +:+ dotted_name (class_of item.2) +:+ "'>"
                | Metaclass formatted => formatted
                end) d.
Proof.
  intros Hself Hns Hsplit Hopen.
  destruct (write_file_with_root w self ns dir module d now Hself Hns)
    as (first & Hfirst & Hwrite).
  cbv zeta in Hwrite. rewrite Hopen in Hwrite.
  rewrite Hsplit, with_txt_first in Hfirst. injection Hfirst as <-.
  rewrite Hwrite. cbn [fst snd files]. split_and!; [done | |].
  - by rewrite lookup_insert_eq.
  - apply Forall_forall. intros item _. unfold format_class.
    by destruct (cls_meta (class_of item.2)).
Qed.

Lemma manifest_text_layout_witness :
  files (write_file the_cache now1
           (started_with_color "xpp.db" (Some hutch_root))).2
    !! "/reg/g/pcds/pyps/xpp/xpp/db.txt" =
  Some (format_header "xpp"
        +:+ "hutch-python last loaded on 2018-01-12 14:03:27.412003" +:+ nl
        +:+ "with the following objects:" +:+ nl +:+ nl
        +:+ "x                    <class 'int'>" +:+ nl
        +:+ "robot                <class 'pcdsdevices.sim.Robot'>" +:+ nl
        +:+ "color                <enum 'Color'>" +:+ nl).
Proof.
  refine (eq_trans
            (proj1 (proj2 (manifest_text_layout
                      (started_with_color "xpp.db" (Some hutch_root))
                      the_cache the_namespace hutch_root "xpp.db"
                      [("x", PyInt 5); ("robot", robot); ("color", red)] now1
                      "xpp" "db" [] _ _ _ _)))
            _);
    vm_compute; reflexivity.
Defined.

(** C9. When two calls of [write_file] in a row both return, the two
    texts written, at the same path, are one and the same text around
    the time: what precedes the time is the header and the words
    [hutch-python last loaded on ], what follows it is the rest of the
    body and the entries; both are fixed by the module name and the
    namespace. Read line by line, for times that print without a
    newline, the two files have the same lines before and the same lines
    after the one line that carries the time. *)
Theorem consecutive_manifests_differ_only_in_time
    w self ns dir module now_a now_b w1 w2 :
  heap w !! self = Some (LoadCacheObj ns (Some dir) module) →
  write_file self now_a w = (Returned (), w1) →
  write_file self now_b w1 = (Returned (), w2) →
  ∃ d first text_a text_b,
    heap w !! ns = Some (Namespace d)
    ∧ list_getitem (Spec.with_txt (split "." module)) 0 = Returned first
    ∧ files w1
        !! path_str (manifest_path dir (Spec.with_txt (split "." module)))
      = Some text_a
    ∧ files w2
        !! path_str (manifest_path dir (Spec.with_txt (split "." module)))
      = Some text_b
    ∧ text_a = (format_header first +:+ body_before_time) +:+ now_a
                 +:+ (body_after_time +:+ entries_text d)
    ∧ text_b = (format_header first +:+ body_before_time) +:+ now_b
                 +:+ (body_after_time +:+ entries_text d)
    ∧ ∃ head rest,
        contains_char "010" now_a = false →
        contains_char "010" now_b = false →
        Spec.lines text_a = head ++ (body_before_time +:+ now_a) :: rest
        ∧ Spec.lines text_b = head ++ (body_before_time +:+ now_b) :: rest.
Proof.
  intros Hself Hw1 Hw2.
  destruct (heap w !! ns) as [[d|]|] eqn:Hns.
  - destruct (write_file_with_root w self ns dir module d now_a Hself Hns)
      as (first & Hfirst & Hwrite).
    cbv zeta in Hwrite. rewrite Hw1 in Hwrite.
    destruct (open_error w _) eqn:Hopen; [done|].
    injection Hwrite as Hw1eq.
    assert (heap w1 = heap w ∧ open_error w1 = open_error w) as [Hh Ho].
    { by rewrite Hw1eq. }
    destruct (write_file_with_root w1 self ns dir module d now_b)
      as (first' & Hfirst' & Hwrite'); [by rewrite Hh..|].
    cbv zeta in Hwrite'. rewrite Hw2, Ho, Hopen in Hwrite'.
    injection Hwrite' as Hw2eq.
    rewrite Hfirst in Hfirst'. injection Hfirst' as <-.
    exists d, first. do 2 eexists. split_and!; [done | done | | | done | done |].
    + rewrite Hw1eq. cbn [files]. by rewrite lookup_insert_eq, !app_assoc.
    + rewrite Hw2eq, Hw1eq. cbn [files].
      by rewrite !lookup_insert_eq, !app_assoc.
    + destruct (manifest_lines first d) as (head & rest & Hlines).
      exists head, rest. intros Ha Hb. rewrite !app_assoc.
      by rewrite (Hlines now_a Ha), (Hlines now_b Hb).
  - destruct (write_file_needs_namespace w self ns dir module now_a Hself)
      as [e He]; [intros d; by rewrite Hns | congruence].
  - destruct (write_file_needs_namespace w self ns dir module now_a Hself)
      as [e He]; [intros d; by rewrite Hns | congruence].
Qed.

Lemma consecutive_manifests_differ_only_in_time_witness :
  ∃ before after,
    files (written "xpp.db") !! "/reg/g/pcds/pyps/xpp/xpp/db.txt"
      = Some (before +:+ now1 +:+ after)
    ∧ files (written_twice "xpp.db") !! "/reg/g/pcds/pyps/xpp/xpp/db.txt"
      = Some (before +:+ now2 +:+ after).
Proof.
  destruct (consecutive_manifests_differ_only_in_time
              (started "xpp.db" (Some hutch_root))
              the_cache the_namespace hutch_root "xpp.db" now1 now2
              (written "xpp.db") (written_twice "xpp.db"))
    as (d & first & text_a & text_b & _ & _ & H1 & H2 & -> & -> & _).
  - vm_compute. reflexivity.
  - vm_compute. reflexivity.
  - vm_compute. reflexivity.
  - eexists _, _. split; [exact H1 | exact H2].
Defined.

End CacheSpec.

(** ** More about dictionaries *)

Module DictFacts.
Import Python PythonFacts.

Section Dict.
Context {V : Type}.
Implicit Types (d : pydict V) (k : string) (v : V) (kw : list (string * V)).

Lemma dict_update_nil_l d : dict_update d [] = d.
Proof. done. Qed.

Lemma dict_update_snoc d kw k v :
  dict_update d (kw ++ [(k, v)]) = dict_setitem (dict_update d kw) k v.
Proof. unfold dict_update. by rewrite foldl_app. Qed.

Lemma dict_update_concat d kw1 kw2 :
  dict_update d (kw1 ++ kw2) = dict_update (dict_update d kw1) kw2.
Proof. unfold dict_update. apply foldl_app. Qed.

(** After an update a name holds the value of its last keyword, or what
    it held before when no keyword names it. *)
Lemma dict_get_update d kw k :
  dict_get (dict_update d kw) k =
    match dict_get (reverse kw) k with
    | Some v => Some v
    | None => dict_get d k
    end.
Proof.
  induction kw as [|[k0 v0] kw IH] using rev_ind; [done|].
  rewrite dict_update_snoc, reverse_snoc. cbn [dict_get].
  destruct (decide (k0 = k)) as [->|Hne].
  - apply dict_get_setitem_eq.
  - by rewrite dict_get_setitem_ne.
Qed.

Lemma dict_get_is_Some d k : is_Some (dict_get d k) ↔ k ∈ dict_keys d.
Proof.
  rewrite <-not_eq_None_Some, dict_get_None.
  split; [apply dec_stable | by intros ? ?].
Qed.

Lemma dict_keys_update_present d kw :
  (∀ k, k ∈ kw.*1 → k ∈ dict_keys d) →
  dict_keys (dict_update d kw) = dict_keys d.
Proof.
  revert d. induction kw as [|[k v] kw IH]; intros d Hin; [done|].
  rewrite dict_update_cons.
  assert (dict_keys (dict_setitem d k v) = dict_keys d) as Hk.
  { rewrite dict_keys_setitem, bool_decide_true; [done|].
    apply Hin, list_elem_of_here. }
  rewrite IH; [done|]. intros k' Hk'. rewrite Hk.
  apply Hin. by apply list_elem_of_further.
Qed.

Lemma dict_keys_after_update d kw k :
  k ∈ kw.*1 → k ∈ dict_keys (dict_update d kw).
Proof.
  intros Hin. apply dict_get_is_Some. rewrite dict_get_update.
  assert (is_Some (dict_get (reverse kw) k)) as [v ->]; [|by eexists].
  apply dict_get_is_Some. unfold dict_keys.
  by rewrite fmap_reverse, elem_of_reverse.
Qed.

(** Two dictionaries with the same names in the same order and the same
    value under each name are the same dictionary. *)
Lemma dict_ext d1 d2 :
  NoDup (dict_keys d1) →
  dict_keys d1 = dict_keys d2 →
  (∀ k, dict_get d1 k = dict_get d2 k) →
  d1 = d2.
Proof.
  revert d2. induction d1 as [|[k v] d1 IH]; intros [|[k' v'] d2] Hnd Hkeys Hget;
    try done.
  unfold dict_keys in *. cbn [fmap list_fmap fst] in Hnd, Hkeys.
  injection Hkeys as <- Hkeys. apply NoDup_cons in Hnd as [Hk Hnd].
  pose proof (Hget k) as Hv. cbn [dict_get] in Hv.
  rewrite !decide_True in Hv by done. injection Hv as <-.
  f_equal. apply IH; [done | done |].
  intros k0. specialize (Hget k0). cbn [dict_get] in Hget.
  destruct (decide (k = k0)) as [<-|Hne]; [|done].
  transitivity (@None V); [|symmetry]; apply dict_get_None; unfold dict_keys;
    [done | by rewrite <-Hkeys].
Qed.

(** Updating twice with the same keywords is updating once. *)
Lemma dict_update_idempotent d kw :
  NoDup (dict_keys d) →
  dict_update (dict_update d kw) kw = dict_update d kw.
Proof.
  intros Hnd. apply dict_ext.
  - by do 2 apply dict_update_NoDup.
  - apply dict_keys_update_present. intros k Hk.
    by apply dict_keys_after_update.
  - intros k. rewrite !dict_get_update.
    by destruct (dict_get (reverse kw) k).
Qed.
End Dict.

End DictFacts.

(** ** More about [LoadCache] *)

Module CacheMore.
Import Python Cache PythonFacts StringFacts CacheFacts DictFacts Examples
  MoreExamples.

(** The two objects [__init__] allocates are new. *)
Lemma init_fresh module hutch_dir objs w self w' :
  LoadCache_init module hutch_dir objs w = (Returned self, w') →
  ∃ ns,
    heap w !! self = None ∧ heap w !! ns = None ∧ ns ≠ self
    ∧ heap w' =
        <[self := LoadCacheObj ns hutch_dir module]>
          (<[ns := Namespace (IterableNamespace objs)]> (heap w))
    ∧ sys_modules w' =
        <["hutch_python.db" := ns]> (<[module := ns]> (sys_modules w))
    ∧ files w' = files w
    ∧ open_error w' = open_error w.
Proof.
  unfold LoadCache_init, bind_kwargs.
  destruct (List.find _ objs); [done|]. intros [= <- <-].
  pose proof (is_fresh (dom (heap w))) as Hself.
  pose proof (is_fresh ({[fresh (dom (heap w))]} ∪ dom (heap w))) as Hns.
  eexists. split_and!; try reflexivity.
  - by apply not_elem_of_dom.
  - apply not_elem_of_dom. set_solver.
  - intros Heq. rewrite Heq in Hns. set_solver.
Qed.

(** X1. Constructing a cache creates its two objects at addresses not in
    use, leaves every object that exists as it is, changes no entry of
    [sys.modules] other than the module name and [hutch_python.db], and
    does not touch the files. *)
Theorem init_keeps_what_exists module hutch_dir objs w self w' :
  LoadCache_init module hutch_dir objs w = (Returned self, w') →
  heap w !! self = None
  ∧ (∀ l o, heap w !! l = Some o → heap w' !! l = Some o)
  ∧ (∀ name, name ≠ module → name ≠ "hutch_python.db" →
       sys_modules w' !! name = sys_modules w !! name)
  ∧ files w' = files w
  ∧ open_error w' = open_error w.
Proof.
  intros (ns & Hself & Hns & Hne & Hheap & Hmods & Hfiles & Hopen)%init_fresh.
  split_and!; [done | | | done | done].
  - intros l o Hl. rewrite Hheap.
    rewrite !lookup_insert_ne; [done | congruence | congruence].
  - intros name Hm Hdb. rewrite Hmods. by rewrite !lookup_insert_ne.
Qed.

Lemma init_keeps_what_exists_witness :
  heap bare !! the_cache = None
  ∧ files (started "xpp.db" None) = files bare.
Proof.
  destruct (init_keeps_what_exists "xpp.db" None
              [("x", PyInt 5); ("robot", robot)] bare the_cache
              (started "xpp.db" None))
    as (H1 & _ & _ & H2 & _).
  - vm_compute. reflexivity.
  - split; [exact H1 | exact H2].
Defined.

(** X2. When a second cache is constructed under another module name,
    [hutch_python.db] refers to the namespace of the second cache, the
    first module name still refers to the namespace of the first, the
    two namespaces are different objects, and nothing added to the first
    cache from then on shows through [hutch_python.db]. *)
Theorem second_cache_takes_the_alias
    module1 dir1 objs1 module2 dir2 objs2 w self1 w1 self2 w2 :
  LoadCache_init module1 dir1 objs1 w = (Returned self1, w1) →
  LoadCache_init module2 dir2 objs2 w1 = (Returned self2, w2) →
  module1 ≠ module2 →
  module1 ≠ "hutch_python.db" →
  ∃ ns1 ns2,
    ns1 ≠ ns2
    ∧ sys_modules w2 !! module1 = Some ns1
    ∧ sys_modules w2 !! module2 = Some ns2
    ∧ sys_modules w2 !! "hutch_python.db" = Some ns2
    ∧ heap w2 !! self1 = Some (LoadCacheObj ns1 dir1 module1)
    ∧ module_dict module1 w2 = Some (IterableNamespace objs1)
    ∧ ∀ calls,
        module_dict "hutch_python.db" (add_all self1 calls w2)
        = Some (IterableNamespace objs2).
Proof.
  intros Hinit1 Hinit2 Hmod Hdb.
  destruct (init_heap _ _ _ _ _ _ Hinit1) as (ns1 & Hself1 & Hns1 & Hm1 & _).
  destruct (init_fresh _ _ _ _ _ _ Hinit2)
    as (ns2 & Hfresh_self & Hfresh_ns & Hne & Hheap & Hmods & _).
  assert (ns1 ≠ ns2) as Hns by congruence.
  assert (self1 ≠ ns2) as Hs1 by congruence.
  assert (self1 ≠ self2) as Hs2 by congruence.
  assert (ns1 ≠ self2) as Hs3 by congruence.
  assert (heap w2 !! self1 = Some (LoadCacheObj ns1 dir1 module1)) as Hself1'.
  { rewrite Hheap. by rewrite !lookup_insert_ne. }
  assert (heap w2 !! ns1 = Some (Namespace (IterableNamespace objs1))) as Hns1'.
  { rewrite Hheap. by rewrite !lookup_insert_ne. }
  assert (sys_modules w2 !! "hutch_python.db" = Some ns2) as Halias.
  { rewrite Hmods. by rewrite lookup_insert_eq. }
  exists ns1, ns2. split_and!; try done.
  - rewrite Hmods. by rewrite !lookup_insert_ne.
  - rewrite Hmods. rewrite lookup_insert. case_decide; [done|].
    by rewrite lookup_insert_eq.
  - unfold module_dict. rewrite Hmods, !lookup_insert_ne by done.
    by rewrite Hm1, Hns1'.
  - assert (heap w2 !! ns2 = Some (Namespace (IterableNamespace objs2))) as Hns2.
    { rewrite Hheap, lookup_insert_ne by done. by rewrite lookup_insert_eq. }
    intros calls.
    assert (∀ w3, sys_modules w3 = sys_modules w2 →
              heap w3 !! ns2 = heap w2 !! ns2 →
              (∃ d, heap w3 !! self1 = Some (LoadCacheObj ns1 dir1 module1)
                    ∧ heap w3 !! ns1 = Some (Namespace d)) →
              module_dict "hutch_python.db" (add_all self1 calls w3)
              = Some (IterableNamespace objs2)) as Hind; [|by eauto].
    induction calls as [|kw calls IH]; intros w3 Hsm Hh (d & Hc & Hn).
    + unfold module_dict. cbn [add_all foldl]. by rewrite Hsm, Halias, Hh, Hns2.
    + cbn [add_all foldl]. apply IH.
      * unfold LoadCache_call. destruct (bind_kwargs _ kw); [|done].
        by rewrite (self_objs_dict_eq _ _ _ _ _ _ Hc Hn).
      * unfold LoadCache_call. destruct (bind_kwargs _ kw); [|done].
        rewrite (self_objs_dict_eq _ _ _ _ _ _ Hc Hn). cbn [snd set_heap heap].
        by rewrite lookup_insert_ne.
      * destruct (call_keeps_cache w3 self1 ns1 dir1 module1 d kw Hc Hn)
          as (Hc' & d' & Hn'). by eauto.
Qed.

Lemma second_cache_takes_the_alias_witness :
  ∃ ns1 ns2,
    ns1 ≠ ns2
    ∧ sys_modules
        (LoadCache_init "mfx.db" None [("y", PyInt 1)]
           (started "xpp.db" None)).2 !! "xpp.db" = Some ns1
    ∧ sys_modules
        (LoadCache_init "mfx.db" None [("y", PyInt 1)]
           (started "xpp.db" None)).2 !! "hutch_python.db" = Some ns2.
Proof.
  destruct (second_cache_takes_the_alias
              "xpp.db" None [("x", PyInt 5); ("robot", robot)]
              "mfx.db" None [("y", PyInt 1)]
              bare the_cache (started "xpp.db" None) 3%positive
              (LoadCache_init "mfx.db" None [("y", PyInt 1)]
                 (started "xpp.db" None)).2)
    as (ns1 & ns2 & Hne & H1 & _ & H2 & _).
  - vm_compute. reflexivity.
  - vm_compute. reflexivity.
  - apply (bool_decide_unpack _). vm_compute. exact I.
  - apply (bool_decide_unpack _). vm_compute. exact I.
  - by exists ns1, ns2.
Defined.

(** A call of [add] whose keywords are accepted. *)
Lemma accepted_call w self ns hutch_dir module d kw :
  heap w !! self = Some (LoadCacheObj ns hutch_dir module) →
  heap w !! ns = Some (Namespace d) →
  bind_kwargs ["self"] kw = Returned kw →
  heap (LoadCache_call self kw w).2 !! self
    = Some (LoadCacheObj ns hutch_dir module)
  ∧ heap (LoadCache_call self kw w).2 !! ns
    = Some (Namespace (dict_update d kw))
  ∧ sys_modules (LoadCache_call self kw w).2 = sys_modules w.
Proof.
  intros Hself Hns Hkw.
  rewrite (call_returned _ _ _ _ _ _ _ Hself Hns Hkw). cbn [snd set_heap heap].
  pose proof (cache_ne_namespace _ _ _ _ _ _ Hself Hns).
  split_and!; [by rewrite lookup_insert_ne | by rewrite lookup_insert_eq | done].
Qed.

Lemma accepted_calls calls w self ns hutch_dir module d :
  heap w !! self = Some (LoadCacheObj ns hutch_dir module) →
  heap w !! ns = Some (Namespace d) →
  Forall (fun kw => bind_kwargs ["self"] kw = Returned kw) calls →
  heap (add_all self calls w) !! ns
    = Some (Namespace (dict_update d (concat calls)))
  ∧ sys_modules (add_all self calls w) = sys_modules w.
Proof.
  intros Hself Hns Hok. revert w d Hself Hns.
  induction Hok as [|kw calls Hkw _ IH]; intros w d Hself Hns; [done|].
  destruct (accepted_call w self ns hutch_dir module d kw Hself Hns Hkw)
    as (Hself' & Hns' & Hmods).
  destruct (IH _ _ Hself' Hns') as [Hheap Hsm].
  cbn [add_all foldl concat]. fold (add_all self calls (LoadCache_call self kw w).2).
  by rewrite Hheap, Hsm, Hmods, dict_update_concat.
Qed.

(** X3. After a cache is constructed, whatever is added through it shows
    under both names in [sys.modules] with no further registration: after
    any run of accepted [add] calls both names give the seeded namespace
    updated with the keywords of all the calls, in call order. A run of
    calls thus amounts to one call with all the keywords. *)
Theorem adds_show_through_both_entries module hutch_dir objs w self w' calls :
  LoadCache_init module hutch_dir objs w = (Returned self, w') →
  Forall (fun kw => bind_kwargs ["self"] kw = Returned kw) calls →
  module_dict module (add_all self calls w')
    = Some (dict_update (IterableNamespace objs) (concat calls))
  ∧ module_dict "hutch_python.db" (add_all self calls w')
    = Some (dict_update (IterableNamespace objs) (concat calls)).
Proof.
  intros (ns & Hself & Hns & Hmod & Hdb)%init_heap Hok.
  destruct (accepted_calls calls _ _ _ _ _ _ Hself Hns Hok) as [Hheap Hsm].
  unfold module_dict. by rewrite Hsm, Hmod, Hdb, Hheap.
Qed.

Lemma adds_show_through_both_entries_witness :
  module_dict "xpp.db"
    (add_all the_cache [[("a", PyInt 1)]; [("x", PyInt 6); ("b", PyInt 2)]]
       (started "xpp.db" None))
  = Some [("x", PyInt 6); ("robot", robot); ("a", PyInt 1); ("b", PyInt 2)].
Proof.
  refine (eq_trans
            (proj1 (adds_show_through_both_entries "xpp.db" None
                      [("x", PyInt 5); ("robot", robot)] bare the_cache
                      (started "xpp.db" None)
                      [[("a", PyInt 1)]; [("x", PyInt 6); ("b", PyInt 2)]]
                      _ _))
            _).
  - vm_compute. reflexivity.
  - repeat constructor.
  - vm_compute. reflexivity.
Defined.

(** X4. Calling [add] twice in a row with the same keywords leaves the
    process as one call does. *)
Theorem add_twice_is_add_once w self ns hutch_dir module d kw :
  heap w !! self = Some (LoadCacheObj ns hutch_dir module) →
  heap w !! ns = Some (Namespace d) →
  NoDup (dict_keys d) →
  LoadCache_call self kw (LoadCache_call self kw w).2 = LoadCache_call self kw w.
Proof.
  intros Hself Hns Hnd. unfold LoadCache_call at 2 3.
  destruct (bind_kwargs ["self"] kw) as [kw'|e] eqn:Hkw.
  - assert (kw' = kw) as ->.
    { unfold bind_kwargs in Hkw. destruct (List.find _ kw); congruence. }
    rewrite (self_objs_dict_eq _ _ _ _ _ _ Hself Hns). cbn [snd].
    pose proof (cache_ne_namespace _ _ _ _ _ _ Hself Hns) as Hne.
    rewrite (call_returned _ self ns hutch_dir module (dict_update d kw) kw);
      [| by cbn [set_heap heap]; rewrite lookup_insert_ne
       | by cbn [set_heap heap]; rewrite lookup_insert_eq
       | done].
    unfold set_heap. cbn [heap sys_modules files open_error].
    by rewrite insert_insert_eq, dict_update_idempotent.
  - cbn [snd]. unfold LoadCache_call. by rewrite Hkw.
Qed.

Lemma add_twice_is_add_once_witness :
  LoadCache_call the_cache [("x", PyInt 6); ("b", PyInt 2)]
    (LoadCache_call the_cache [("x", PyInt 6); ("b", PyInt 2)]
       (started "xpp.db" None)).2
  = LoadCache_call the_cache [("x", PyInt 6); ("b", PyInt 2)]
      (started "xpp.db" None).
Proof.
  apply (add_twice_is_add_once (started "xpp.db" None) the_cache the_namespace
           None "xpp.db" [("x", PyInt 5); ("robot", robot)]).
  - vm_compute. reflexivity.
  - vm_compute. reflexivity.
  - apply (bool_decide_unpack _). vm_compute. exact I.
Defined.

(** X5. A call of [add] changes nothing but the [__dict__] of the
    cache's namespace: [sys.modules] and the files stay, and the heap is
    either as before (the call raised) or differs in that one object,
    which holds the old dictionary updated with the keywords. *)
Theorem add_changes_the_namespace_only self kw w :
  sys_modules (LoadCache_call self kw w).2 = sys_modules w
  ∧ files (LoadCache_call self kw w).2 = files w
  ∧ open_error (LoadCache_call self kw w).2 = open_error w
  ∧ (LoadCache_call self kw w = (Returned (), (LoadCache_call self kw w).2)
     ∧ (∃ ns hutch_dir module d,
          heap w !! self = Some (LoadCacheObj ns hutch_dir module)
          ∧ heap w !! ns = Some (Namespace d)
          ∧ heap (LoadCache_call self kw w).2
            = <[ns := Namespace (dict_update d kw)]> (heap w))
     ∨ (∃ e, LoadCache_call self kw w = (Raised e, w))).
Proof.
  unfold LoadCache_call.
  destruct (bind_kwargs ["self"] kw) as [kw'|e] eqn:Hkw; [|by eauto 10].
  assert (kw' = kw) as ->.
  { unfold bind_kwargs in Hkw. destruct (List.find _ kw); congruence. }
  unfold self_objs_dict.
  destruct (heap w !! self) as [[?|ns hutch_dir module]|] eqn:Hself;
    [by eauto 10 | | by eauto 10].
  destruct (heap w !! ns) as [[d|]|] eqn:Hns; [| by eauto 10..].
  cbn [snd set_heap sys_modules files open_error heap].
  split_and!; try done. left. split; [done|]. by exists ns, hutch_dir, module, d.
Qed.

Lemma find_some_of_elem {A} (f : A → bool) (l : list A) x :
  x ∈ l → f x = true → ∃ y, List.find f l = Some y.
Proof.
  induction 1 as [x l|x z l _ IH]; intros Hf; cbn [List.find].
  - rewrite Hf. by eexists.
  - destruct (f z); [by eexists | by apply IH].
Qed.

(** X6. A keyword named like a parameter never reaches the namespace:
    constructing a cache with an initial object named [self], [module] or
    [hutch_dir] raises [TypeError] and leaves the process as it was, and
    so does [add] with an object named [self]. *)
Theorem parameter_names_are_rejected module hutch_dir objs self kw w name :
  (name ∈ ["self"; "module"; "hutch_dir"] → name ∈ objs.*1 →
   ∃ e, LoadCache_init module hutch_dir objs w = (Raised e, w)
        ∧ exc_class e = TypeError)
  ∧ ("self" ∈ kw.*1 →
     ∃ e, LoadCache_call self kw w = (Raised e, w)
          ∧ exc_class e = TypeError).
Proof.
  split.
  - intros Hname (kv & -> & Hin)%list_elem_of_fmap.
    destruct (find_some_of_elem
                (fun kv => bool_decide (kv.1 ∈ ["self"; "module"; "hutch_dir"]))
                objs kv Hin) as [y Hy]; [by apply bool_decide_eq_true|].
    unfold LoadCache_init, bind_kwargs. rewrite Hy. by eexists.
  - intros (kv & Hk & Hin)%list_elem_of_fmap.
    destruct (find_some_of_elem
                (fun kv => bool_decide (kv.1 ∈ ["self"]))
                kw kv Hin) as [y Hy].
    { apply bool_decide_eq_true. rewrite <-Hk. apply list_elem_of_here. }
    unfold LoadCache_call, bind_kwargs. rewrite Hy. by eexists.
Qed.

Lemma parameter_names_are_rejected_witness :
  ∃ e, LoadCache_init "xpp.db" None [("x", PyInt 5); ("module", PyInt 1)] bare
       = (Raised e, bare)
       ∧ exc_class e = TypeError.
Proof.
  apply (proj1 (parameter_names_are_rejected "xpp.db" None
                  [("x", PyInt 5); ("module", PyInt 1)] the_cache [] bare
                  "module")).
  - apply (bool_decide_unpack _). vm_compute. exact I.
  - apply (bool_decide_unpack _). vm_compute. exact I.
Defined.

(** X7. When the manifest file cannot be opened for writing,
    [write_file] raises the error of the open and leaves the process,
    files included, as it was. *)
Theorem write_file_surfaces_open_error w self ns dir module d now e :
  heap w !! self = Some (LoadCacheObj ns (Some dir) module) →
  heap w !! ns = Some (Namespace d) →
  open_error w
    (path_str (manifest_path dir (Spec.with_txt (split "." module)))) = Some e →
  write_file self now w = (Raised e, w).
Proof.
  intros Hself Hns Hopen.
  destruct (write_file_with_root w self ns dir module d now Hself Hns)
    as (first & _ & Hwrite).
  cbv zeta in Hwrite. by rewrite Hopen in Hwrite.
Qed.

Lemma write_file_surfaces_open_error_witness :
  write_file the_cache now1 started_locked
  = (Raised (PyExc FileNotFoundError "No such file or directory"),
     started_locked).
Proof.
  apply (write_file_surfaces_open_error started_locked the_cache the_namespace
           hutch_root "xpp.db" [("x", PyInt 5); ("robot", robot)] now1);
    vm_compute; reflexivity.
Defined.

Lemma concat_all_app l1 l2 :
  concat_all (l1 ++ l2) = concat_all l1 +:+ concat_all l2.
Proof.
  induction l1 as [|x l1 IH]; [done|].
  cbn [app concat_all]. by rewrite IH, app_assoc.
Qed.

Lemma entries_text_snoc d name obj :
  entries_text (d ++ [(name, obj)]) = entries_text d +:+ format_entry name obj.
Proof.
  unfold entries_text. rewrite fmap_app, concat_all_app.
  cbn [fmap list_fmap concat_all fst snd]. by rewrite app_nil_r.
Qed.

(** X8. Adding an object under a name the namespace does not have yet
    adds one line at the end of the manifest and changes nothing else in
    it: written at the same reading of the clock, the manifest after the
    [add] is the manifest before it followed by the line of the new
    entry. *)
Theorem new_name_appends_a_manifest_line w self ns dir module d now name obj :
  heap w !! self = Some (LoadCacheObj ns (Some dir) module) →
  heap w !! ns = Some (Namespace d) →
  name ∉ dict_keys d →
  name ≠ "self" →
  open_error w
    (path_str (manifest_path dir (Spec.with_txt (split "." module)))) = None →
  ∃ text,
    files (write_file self now w).2
      !! path_str (manifest_path dir (Spec.with_txt (split "." module)))
    = Some text
    ∧ files (write_file self now (LoadCache_call self [(name, obj)] w).2).2
        !! path_str (manifest_path dir (Spec.with_txt (split "." module)))
      = Some (text +:+ format_entry name obj).
Proof.
  intros Hself Hns Hnew Hname Hopen.
  assert (bind_kwargs ["self"] [(name, obj)] = Returned [(name, obj)]) as Hkw.
  { unfold bind_kwargs. cbn [List.find fst].
    rewrite bool_decide_false; [done|].
    by intros ->%list_elem_of_singleton. }
  destruct (accepted_call w self ns (Some dir) module d _ Hself Hns Hkw)
    as (Hself' & Hns' & _).
  destruct (write_file_with_root w self ns dir module d now Hself Hns)
    as (first & Hfirst & Hwrite).
  destruct (write_file_with_root _ self ns dir module _ now Hself' Hns')
    as (first' & Hfirst' & Hwrite').
  rewrite Hfirst in Hfirst'. injection Hfirst' as <-.
  cbv zeta in Hwrite, Hwrite'.
  assert (open_error (LoadCache_call self [(name, obj)] w).2 = open_error w)
    as Hopen' by (by rewrite (call_returned _ _ _ _ _ _ _ Hself Hns Hkw)).
  rewrite Hopen', Hopen in Hwrite'. rewrite Hopen in Hwrite.
  rewrite Hwrite, Hwrite'. cbn [snd files].
  eexists. split; [by rewrite lookup_insert_eq|].
  rewrite lookup_insert_eq. f_equal.
  rewrite dict_update_cons, dict_update_nil_l, dict_setitem_new by done.
  by rewrite entries_text_snoc, !app_assoc.
Qed.

Lemma new_name_appends_a_manifest_line_witness :
  ∃ text,
    files (written "xpp.db") !! "/reg/g/pcds/pyps/xpp/xpp/db.txt" = Some text
    ∧ files
        (write_file the_cache now1
           (LoadCache_call the_cache [("a", PyInt 1)]
              (started "xpp.db" (Some hutch_root))).2).2
        !! "/reg/g/pcds/pyps/xpp/xpp/db.txt"
      = Some (text +:+ "a                    <class 'int'>" +:+ nl).
Proof.
  destruct (new_name_appends_a_manifest_line
              (started "xpp.db" (Some hutch_root)) the_cache the_namespace
              hutch_root "xpp.db" [("x", PyInt 5); ("robot", robot)] now1
              "a" (PyInt 1))
    as (text & H1 & H2).
  - vm_compute. reflexivity.
  - vm_compute. reflexivity.
  - apply (bool_decide_unpack _). vm_compute. exact I.
  - apply (bool_decide_unpack _). vm_compute. exact I.
  - vm_compute. reflexivity.
  - exists text. split; [exact H1 | exact H2].
Defined.

Lemma length_app (a b : string) :
  String.length (a +:+ b) = (String.length a + String.length b)%nat.
Proof.
  induction a as [|c a IH]; [done|].
  rewrite app_cons. cbn [String.length]. by rewrite IH.
Qed.

(** A common suffix can be cancelled. *)
Lemma app_inj_r (a b c : string) : a +:+ c = b +:+ c → a = b.
Proof.
  revert b. induction a as [|x a IH]; intros [|y b] Heq; [done | | |].
  - apply (f_equal String.length) in Heq.
    rewrite app_nil_l, app_cons in Heq. cbn [String.length] in Heq.
    rewrite length_app in Heq. lia.
  - apply (f_equal String.length) in Heq.
    rewrite app_nil_l, app_cons in Heq. cbn [String.length] in Heq.
    rewrite length_app in Heq. lia.
  - rewrite !app_cons in Heq. injection Heq as -> Heq. f_equal. by apply IH.
Qed.

Lemma with_txt_inj segs1 segs2 :
  Spec.with_txt segs1 = Spec.with_txt segs2 → segs1 = segs2.
Proof.
  revert segs2. induction segs1 as [|x segs1 IH]; intros [|y segs2] Heq.
  - done.
  - by destruct segs2.
  - by destruct segs1.
  - destruct segs1 as [|x' segs1], segs2 as [|y' segs2].
    + injection Heq as Heq. by apply app_inj_r in Heq as ->.
    + injection Heq as _ Heq. by destruct segs2.
    + injection Heq as _ Heq. by destruct segs1.
    + change (x :: Spec.with_txt (x' :: segs1)
              = y :: Spec.with_txt (y' :: segs2)) in Heq.
      injection Heq as -> Heq. f_equal. by apply IH.
Qed.

Lemma join_cons sep x y l :
  join sep (x :: y :: l) = x +:+ sep +:+ join sep (y :: l).
Proof. reflexivity. Qed.

Lemma join_cons_char sep c f fs :
  join sep (String c f :: fs) = String c (join sep (f :: fs)).
Proof. by destruct fs. Qed.

(** Joining what a split gave restores the string. *)
Lemma join_split sep s : join (String sep "") (split sep s) = s.
Proof.
  induction s as [|c s IH]; [done|]. cbn [split].
  destruct (split sep s) as [|f fs] eqn:Hs; [by apply split_nonempty in Hs|].
  destruct (decide (c = sep)) as [->|Hne].
  - by rewrite join_cons, IH.
  - by rewrite join_cons_char, IH.
Qed.

Lemma split_inj sep s1 s2 : split sep s1 = split sep s2 → s1 = s2.
Proof.
  intros Heq. by rewrite <-(join_split sep s1), <-(join_split sep s2), Heq.
Qed.

Lemma path_str_names root x names :
  path_str (MkPath root (x :: names)) = root +:+ join "/" (x :: names).
Proof. unfold path_str. cbn [path_root path_names]. by destruct root. Qed.

Lemma plain_name_free x : plain_name x → contains_char "/" x = false.
Proof. by intros (_ & _ & ?). Qed.

Lemma manifest_file_inj dir module1 module2 :
  Forall plain_name (path_names dir) →
  contains_char "/" module1 = false →
  leading_segments_nonempty (split "." module1) = true →
  contains_char "/" module2 = false →
  leading_segments_nonempty (split "." module2) = true →
  path_str (manifest_path dir (Spec.with_txt (split "." module1)))
  = path_str (manifest_path dir (Spec.with_txt (split "." module2))) →
  module1 = module2.
Proof.
  intros Hdir Hs1 Hl1 Hs2 Hl2.
  rewrite !manifest_path_plain by done. unfold Spec.manifest_path.
  assert (∀ module,
            contains_char "/" module = false →
            leading_segments_nonempty (split "." module) = true →
            Forall plain_name (Spec.with_txt (split "." module))) as Hplain.
  { intros module Hs Hl.
    apply with_txt_plain; [apply split_fields_free | | done].
    by apply split_fields_free_of. }
  pose proof (Hplain _ Hs1 Hl1) as Hp1. pose proof (Hplain _ Hs2 Hl2) as Hp2.
  assert (∀ t, t ≠ [] → ∃ x names, path_names dir ++ t = x :: names) as Hcons.
  { intros t Ht. destruct (path_names dir); destruct t; by eauto. }
  destruct (Hcons (Spec.with_txt (split "." module1))) as (x1 & n1 & Hn1);
    [apply with_txt_nonempty, split_nonempty|].
  destruct (Hcons (Spec.with_txt (split "." module2))) as (x2 & n2 & Hn2);
    [apply with_txt_nonempty, split_nonempty|].
  rewrite Hn1, Hn2, !path_str_names. intros Heq%(inj (String.app _)).
  apply (f_equal (split "/")) in Heq.
  rewrite !split_join in Heq; try done.
  - rewrite <-Hn1, <-Hn2 in Heq. apply app_inv_head in Heq.
    by apply (split_inj "."%char), with_txt_inj.
  - rewrite <-Hn2. apply Forall_app. split;
      (eapply Forall_impl; [eassumption | apply plain_name_free]).
  - rewrite <-Hn1. apply Forall_app. split;
      (eapply Forall_impl; [eassumption | apply plain_name_free]).
Qed.

(** X9. Caches on the same directory whose module names differ write
    different files, when the module names have no slash and no empty
    segment before the last: one manifest never overwrites another. *)
Theorem distinct_modules_write_distinct_files dir module1 module2 :
  Forall plain_name (path_names dir) →
  contains_char "/" module1 = false →
  leading_segments_nonempty (split "." module1) = true →
  contains_char "/" module2 = false →
  leading_segments_nonempty (split "." module2) = true →
  module1 ≠ module2 →
  path_str (manifest_path dir (Spec.with_txt (split "." module1)))
  ≠ path_str (manifest_path dir (Spec.with_txt (split "." module2))).
Proof.
  intros Hdir Hs1 Hl1 Hs2 Hl2 Hne Heq. apply Hne.
  by apply (manifest_file_inj dir).
Qed.

Lemma distinct_modules_write_distinct_files_witness :
  path_str (manifest_path hutch_root (Spec.with_txt (split "." "xpp.db")))
  ≠ path_str (manifest_path hutch_root (Spec.with_txt (split "." "xpp.beamline"))).
Proof.
  apply (distinct_modules_write_distinct_files hutch_root "xpp.db"
           "xpp.beamline").
  - repeat constructor; vm_compute; congruence.
  - vm_compute. reflexivity.
  - vm_compute. reflexivity.
  - vm_compute. reflexivity.
  - vm_compute. reflexivity.
  - apply (bool_decide_unpack _). vm_compute. exact I.
Defined.

(** X10. For a module name without a dot the only segment is also the
    first one: the manifest goes to [<module>.txt] in the directory, and
    the header and the import advice in it are formatted with
    [<module>.txt], not with the module name. *)
Theorem one_segment_module_names_its_file w self ns dir module d now :
  heap w !! self = Some (LoadCacheObj ns (Some dir) module) →
  heap w !! ns = Some (Namespace d) →
  contains_char "." module = false →
  open_error w (path_str (truediv dir (Path (module +:+ ".txt")))) = None →
  (write_file self now w).1 = Returned ()
  ∧ files (write_file self now w).2
      !! path_str (truediv dir (Path (module +:+ ".txt")))
    = Some (format_header (module +:+ ".txt") +:+ format_body now
              +:+ entries_text d).
Proof.
  intros Hself Hns Hdot Hopen.
  destruct (write_file_with_root w self ns dir module d now Hself Hns)
    as (first & Hfirst & Hwrite).
  rewrite (split_free "." module Hdot) in Hfirst, Hwrite.
  cbn [Spec.with_txt] in Hfirst, Hwrite.
  rewrite list_getitem_first in Hfirst. injection Hfirst as <-.
  cbv zeta in Hwrite. unfold manifest_path in Hwrite. cbn [join] in Hwrite.
  rewrite Hopen in Hwrite. rewrite Hwrite. cbn [fst snd files].
  split; [done|]. rewrite lookup_insert_eq. unfold format_body.
  by rewrite !app_assoc.
Qed.

Lemma one_segment_module_names_its_file_witness :
  files (written "db") !! "/reg/g/pcds/pyps/xpp/db.txt"
  = Some (format_header "db.txt" +:+ format_body now1
            +:+ "x                    <class 'int'>" +:+ nl
            +:+ "robot                <class 'pcdsdevices.sim.Robot'>" +:+ nl).
Proof.
  refine (eq_trans
            (proj2 (one_segment_module_names_its_file
                      (started "db" (Some hutch_root)) the_cache the_namespace
                      hutch_root "db" [("x", PyInt 5); ("robot", robot)] now1
                      _ _ _ _))
            _);
    vm_compute; reflexivity.
Defined.

End CacheMore.

(** ** More about [load] *)

Module LoadConfMore.
Import Python LoadConf PythonFacts LoadConfFacts Examples.

Section More.
Context {Info Objs : Type}.
Implicit Types (importlib : module_attrs Info Objs) (imp : importer Info Objs)
  (conf : pydict Info) (st : load_state Objs).

(** X11. [load] never hands the mapping it builds to its caller: a call
    either raises or evaluates to [None]. *)
Theorem load_never_returns_the_mapping importlib (parsed : list (pydict Info)) :
  (load importlib parsed).2 = Returned PyNone
  ∨ ∃ e, (load importlib parsed).2 = Raised e.
Proof.
  unfold load. destruct (list_getitem parsed 0) as [conf|e]; [|by eauto].
  destruct (load_loop importlib conf initial_state) as [st [e|]]; by eauto.
Qed.

End More.

End LoadConfMore.

(** ** Facts about [pull_cds_items] *)

Module QsLoadFacts.
Import Python QsLoad PythonFacts StringFacts Examples MoreExamples.

Lemma strip_prefix_app p r : strip_prefix p (p +:+ r) = Some r.
Proof.
  induction p as [|a p IH]; [by destruct r|].
  rewrite app_cons. cbn [strip_prefix]. by rewrite decide_True.
Qed.

Lemma strip_prefix_Some p s r : strip_prefix p s = Some r → s = p +:+ r.
Proof.
  revert s. induction p as [|a p IH]; intros s.
  - destruct s; by intros [= <-].
  - destruct s as [|b s]; [done|]. cbn [strip_prefix].
    destruct (decide (a = b)) as [->|]; [|done].
    intros Hs. by rewrite (IH _ Hs).
Qed.

(** Looking a key up after filtering on a property of the keys that the
    key has. *)
Lemma dict_get_filter_key (P : string → bool) (d : pydict string) k :
  P k = true →
  dict_get (List.filter (fun kv => P kv.1) d) k = dict_get d k.
Proof.
  intros Hk. induction d as [|[k0 v0] d IH]; [done|].
  cbn [List.filter fst]. destruct (P k0) eqn:Hk0; cbn [dict_get].
  - by rewrite IH.
  - rewrite decide_False; [done|]. congruence.
Qed.

(** A key that falls in a category starts with the prefix of the
    category. *)
Lemma category_of_Some k cat :
  category_of k = Some cat →
  In cat categories ∧ ∃ r, k = cat.1 +:+ r ∧ dotstar_then "-name" r = true.
Proof.
  intros [Hin Hm]%List.find_some. split; [done|].
  unfold match_category in Hm.
  destruct (strip_prefix cat.1 k) as [r|] eqn:Hr; [|done].
  exists r. split; [by apply strip_prefix_Some | done].
Qed.

(** The prefix of a category has [pcdssetup] in it and no [name], so
    the key of the PV keeps the prefix. *)
Lemma category_prefix cat repl r :
  In cat categories →
  contains_sub "pcdssetup" (cat.1 +:+ r) = true
  ∧ sub_name repl (cat.1 +:+ r) = cat.1 +:+ sub_name repl r.
Proof.
  intros Hin. cbn in Hin.
  repeat (destruct Hin as [<-|Hin]; [by split|]). done.
Qed.

Lemma display_row_cds_items (d : pydict string) kv :
  display_row (cds_items d) kv = display_row d kv.
Proof.
  unfold display_row.
  destruct (category_of kv.1) as [[p [repl ty]]|] eqn:Hcat; [|done].
  destruct (category_of_Some _ _ Hcat) as (Hin & r & Hk & _).
  destruct (category_prefix _ repl r Hin) as [_ Hsub].
  cbn [fst] in *. unfold dict_get_default, cds_items.
  rewrite dict_get_filter_key; [done|].
  rewrite Hk, Hsub. by apply (category_prefix (p, (repl, ty)) repl).
Qed.

(** A key without [pcdssetup] in it gives no row. *)
Lemma rows_of_cds_items (d0 d : pydict string) :
  omap (display_row d0) (cds_items d) = omap (display_row d0) d.
Proof.
  unfold cds_items. induction d as [|kv d IH]; [done|].
  cbn [List.filter omap list_omap].
  destruct (contains_sub "pcdssetup" kv.1) eqn:Hc.
  - cbn [omap list_omap]. by rewrite IH.
  - rewrite IH. unfold display_row at 2.
    destruct (category_of kv.1) as [[p [repl ty]]|] eqn:Hcat; [|done].
    destruct (category_of_Some _ _ Hcat) as (Hin & r & Hk & _).
    destruct (category_prefix _ repl r Hin) as [Hcontains _].
    cbn [fst] in *. rewrite <-Hk in Hcontains. congruence.
Qed.

Lemma rows_with_cds_lookup (d0 d : pydict string) :
  omap (display_row (cds_items d0)) d = omap (display_row d0) d.
Proof.
  induction d as [|kv d IH]; [done|].
  cbn [omap list_omap]. by rewrite display_row_cds_items, IH.
Qed.

(** X14. Keeping only the keys with [pcdssetup] in them changes no row
    of the table: every key that gives a row has [pcdssetup] in it, and
    so has the key under which its PV is looked up. The table is what
    the loop would give on the complete answer. *)
Theorem cds_filter_loses_no_row (d : pydict string) :
  display_list (cds_items d) = omap (display_row d) d.
Proof.
  unfold display_list. by rewrite rows_of_cds_items, rows_with_cds_lookup.
Qed.

#[local] Instance key_le_trans : Transitive key_le.
Proof. intros a b c. unfold key_le. apply transitivity. Qed.

#[local] Instance key_le_total : Total key_le.
Proof. intros a b. unfold key_le. apply total, _. Qed.

Lemma elem_dict_get (d : pydict string) k v :
  NoDup (dict_keys d) → (k, v) ∈ d → dict_get d k = Some v.
Proof.
  unfold dict_keys. induction d as [|[k0 v0] d IH]; intros Hnd Hin.
  - by apply elem_of_nil in Hin.
  - cbn [fmap list_fmap fst] in Hnd. apply NoDup_cons in Hnd as [Hk0 Hnd].
    apply elem_of_cons in Hin as [[= -> ->]|Hin]; cbn [dict_get].
    + by rewrite decide_True.
    + rewrite decide_False; [by apply IH|].
      intros ->. apply Hk0. by apply (list_elem_of_fmap_2 fst) in Hin.
Qed.

(** What a key holds does not depend on the order of the entries. *)
Lemma dict_get_perm (d d' : pydict string) k :
  NoDup (dict_keys d) → d ≡ₚ d' → dict_get d k = dict_get d' k.
Proof.
  intros Hnd Hperm.
  assert (NoDup (dict_keys d')) as Hnd'.
  { unfold dict_keys in *. by rewrite <-Hperm. }
  destruct (dict_get d k) as [v|] eqn:Hd.
  - symmetry. apply elem_dict_get; [done|]. rewrite <-Hperm.
    clear -Hd. induction d as [|[k0 v0] d IH]; [done|]. cbn [dict_get] in Hd.
    destruct (decide (k0 = k)) as [->|]; [injection Hd as ->; left|right; auto].
  - symmetry. apply dict_get_None. apply dict_get_None in Hd.
    unfold dict_keys in *. by rewrite <-Hperm.
Qed.

Lemma display_row_perm (d d' : pydict string) kv :
  NoDup (dict_keys d) → d ≡ₚ d' → display_row d kv = display_row d' kv.
Proof.
  intros Hnd Hperm. unfold display_row, dict_get_default.
  destruct (category_of kv.1) as [[p [repl ty]]|]; [|done].
  by rewrite (dict_get_perm d d' _ Hnd Hperm).
Qed.

Lemma sorted_items_perm (d d' : pydict string) :
  NoDup (dict_keys d) → d ≡ₚ d' → sorted_items d = sorted_items d'.
Proof.
  intros Hnd Hperm. unfold sorted_items.
  apply (Sorted_unique_strong key_le).
  - intros [k1 v1] [k2 v2] H1 H2 Hle1 Hle2.
    rewrite merge_sort_Permutation in H1.
    rewrite merge_sort_Permutation, <-Hperm in H2.
    unfold key_le in *. cbn [fst] in *.
    assert (k1 = k2) as -> by (by apply (anti_symm String.le)).
    f_equal.
    pose proof (elem_dict_get _ _ _ Hnd H1) as E1.
    pose proof (elem_dict_get _ _ _ Hnd H2) as E2. congruence.
  - apply Sorted_merge_sort, _.
  - apply Sorted_merge_sort, _.
  - by rewrite !merge_sort_Permutation.
Qed.

(** X15. The table does not depend on the order in which the web service
    lists the details of the run: two answers with the same entries
    give the same rows in the same order. *)
Theorem table_ignores_answer_order (d d' : pydict string) :
  NoDup (dict_keys d) →
  d ≡ₚ d' →
  display_list (cds_items (sorted_items d))
  = display_list (cds_items (sorted_items d')).
Proof. intros Hnd Hperm. by rewrite (sorted_items_perm d d'). Qed.

Lemma table_rows (d : pydict string) :
  NoDup (dict_keys d) →
  display_list (cds_items (sorted_items d))
  = omap (display_row d) (sorted_items d).
Proof.
  intros Hnd.
  assert (sorted_items d ≡ₚ d) as Hperm by apply merge_sort_Permutation.
  unfold display_list. rewrite rows_of_cds_items, rows_with_cds_lookup.
  assert (NoDup (dict_keys (sorted_items d))) as Hnd'.
  { unfold dict_keys in *. by rewrite Hperm. }
  generalize (sorted_items d) at 2 3 as items. intros items.
  induction items as [|kv items IH]; [done|]. cbn [omap list_omap].
  by rewrite IH, (display_row_perm _ d kv Hnd' Hperm).
Qed.

(** X16. The rows of the table follow the keys of the answer in
    increasing order: the table is made of the rows of the entries of
    the answer taken in the order of their keys, each PV looked up in the
    answer itself. *)
Theorem rows_follow_the_keys (d : pydict string) :
  NoDup (dict_keys d) →
  sorted_items d ≡ₚ d
  ∧ Sorted key_le (sorted_items d)
  ∧ display_list (cds_items (sorted_items d))
    = omap (display_row d) (sorted_items d).
Proof.
  intros Hnd.
  split_and!; [apply merge_sort_Permutation | apply Sorted_merge_sort, _ |].
  by apply table_rows.
Qed.

(** The loop over the proposals, in closed form. *)
Lemma matched_key_fold id (proposals : pydict string) acc :
  foldl (fun matched kv => if decide (kv.1 = id) then kv.1 else matched)
        acc proposals
  = if bool_decide (id ∈ dict_keys proposals) then id else acc.
Proof.
  unfold dict_keys. revert acc.
  induction proposals as [|[k v] proposals IH]; intros acc; [done|].
  cbn [foldl fmap list_fmap fst]. rewrite IH.
  destruct (decide (k = id)) as [->|Hne].
  - rewrite (bool_decide_true (id ∈ id :: _)) by left.
    by destruct (bool_decide (id ∈ proposals.*1)).
  - destruct (bool_decide (id ∈ proposals.*1)) eqn:Hin.
    + apply bool_decide_eq_true in Hin.
      by rewrite bool_decide_true by (by right).
    + apply bool_decide_eq_false in Hin.
      rewrite bool_decide_false; [done|].
      rewrite not_elem_of_cons. split; [congruence | done].
Qed.

Lemma table_ignores_answer_order_witness :
  display_list (cds_items (sorted_items details))
  = display_list (cds_items (sorted_items details_shuffled)).
Proof.
  apply (table_ignores_answer_order details details_shuffled).
  - apply (bool_decide_unpack _). vm_compute. exact I.
  - apply (bool_decide_unpack _). vm_compute. exact I.
Defined.

Lemma rows_follow_the_keys_witness :
  display_list (cds_items (sorted_items details))
  = [MkQStruct "sample_x" "" "motors";
     MkQStruct "sample_y" "XPP:USR:MMS:02" "motors";
     MkQStruct "supply" "XPP:PS:01" "power supplies"].
Proof.
  refine (eq_trans (proj2 (proj2 (rows_follow_the_keys details _))) _).
  - apply (bool_decide_unpack _). vm_compute. exact I.
  - vm_compute. reflexivity.
Defined.

(** X17. The proposal the details are requested for is the proposal id
    itself when the run lists it, and the empty string when it does
    not. *)
Theorem matched_key_is_the_id_or_empty id (proposals : pydict string) :
  matched_key id proposals
  = if bool_decide (id ∈ dict_keys proposals) then id else "".
Proof. apply matched_key_fold. Qed.

Lemma read_run_raises exp c e :
  (read_run exp c).1 = Raised e →
  e = PyExc EOFError "EOF when reading a line".
Proof.
  unfold read_run, input.
  destruct (match_experiment exp); [done|].
  destruct (match_proposal_dash exp || match_proposal_short exp).
  - destruct (stdin c); cbn; congruence.
  - cbn [print stdin stdout]. destruct (stdin c) as [|l1 [|l2 rest]]; cbn;
      congruence.
Qed.

(** X18. Once the client is constructed, no error of the two requests
    leaves [pull_cds_items] as an [Exception]: a request that raises one
    ends the call with [SystemExit]. The only [Exception] that can leave
    is the [EOFError] of an [input] that found no line. *)
Theorem requests_fail_as_system_exit cl exp c e :
  (pull_cds_items (Returned cl) exp c).1 = Raised e →
  handled_by Exception e = true →
  e = PyExc EOFError "EOF when reading a line"
  ∧ (read_run exp c).1 = Raised e.
Proof.
  unfold pull_cds_items. intros Hpull Hexc.
  destruct (read_run exp c) as [[[run id]|e0] c1] eqn:Hread.
  - exfalso.
    destruct (getProposalsListForRun cl run) as [proposals|e1].
    + destruct (getProposalDetailsForRun cl run _) as [d|e2]; [done|].
      destruct (handled_by Exception e2) eqn:H2; cbn [fst] in Hpull;
        injection Hpull as <-; [done | congruence].
    + destruct (handled_by Exception e1) eqn:H1; cbn [fst] in Hpull;
        injection Hpull as <-; [done | congruence].
  - cbn [fst] in Hpull. injection Hpull as ->. split; [|done].
    apply (read_run_raises exp c). by rewrite Hread.
Qed.

Lemma requests_fail_as_system_exit_witness :
  (read_run "my experiment" terminal).1
  = Raised (PyExc EOFError "EOF when reading a line").
Proof.
  destruct (requests_fail_as_system_exit questionnaire "my experiment"
              terminal (PyExc EOFError "EOF when reading a line"))
    as [_ H].
  - vm_compute. reflexivity.
  - vm_compute. reflexivity.
  - exact H.
Defined.

Lemma digit_lower d : is_digit d = true → lower_char d = d.
Proof.
  unfold lower_char, is_upper, is_digit.
  intros [H1 H2]%andb_true_iff. apply N.leb_le in H1, H2.
  destruct ((65 <=? code d)%N && (code d <=? 90)%N) eqn:E; [|done].
  apply andb_true_iff in E as [E1 _]. apply N.leb_le in E1. lia.
Qed.

Lemma capitalize_digits c r :
  str_forall is_digit r = true → capitalize (String c r) = String (upper_char c) r.
Proof.
  intros Hr. cbn [capitalize]. f_equal.
  induction r as [|d r IH]; [done|]. cbn [str_forall] in Hr.
  apply andb_true_iff in Hr as [Hd Hr]. cbn [str_map].
  by rewrite (digit_lower d Hd), (IH Hr).
Qed.

(** X19. An experiment name (four characters, then seven digits) is
    taken apart without asking the user anything: the run is [run]
    followed by the last two digits, and the proposal id is the fourth
    character in upper case, a dash, and the first five digits. The
    fourth character is taken in ASCII, where the case mapping of the
    model is that of Python. *)
Theorem experiment_name_gives_run_and_proposal c0 c1 c2 c3 ds c :
  not_newline c0 = true → not_newline c1 = true →
  not_newline c2 = true → not_newline c3 = true →
  is_ascii c3 = true →
  String.length ds = 7%nat → str_forall is_digit ds = true →
  read_run (String c0 (String c1 (String c2 (String c3 ds)))) c
  = (Returned ("run" +:+ str_drop 5 ds,
               String (upper_char c3) ("-" +:+ str_take 5 ds)), c).
Proof.
  intros H0 H1 H2 H3 _ Hlen Hds.
  destruct ds as [|d1 [|d2 [|d3 [|d4 [|d5 [|d6 [|d7 [|d8 ds]]]]]]]];
    try discriminate Hlen.
  assert (str_forall is_digit (String d1 (String d2 (String d3 (String d4
            (String d5 ""))))) = true) as Hfive.
  { cbn [str_forall] in *. repeat (apply andb_true_iff in Hds as [-> Hds]).
    done. }
  unfold read_run.
  assert (match_experiment
            (String c0 (String c1 (String c2 (String c3
               (String d1 (String d2 (String d3 (String d4 (String d5
                  (String d6 (String d7 ""))))))))))) = true) as ->.
  { unfold match_experiment. cbn [times]. rewrite H0, H1, H2, H3.
    cbn [str_forall] in Hds.
    repeat (apply andb_true_iff in Hds as [-> Hds]). done. }
  change (slice (String c0 (String c1 (String c2 (String c3
            (String d1 (String d2 (String d3 (String d4 (String d5
               (String d6 (String d7 "")))))))))))
            (Some 3%Z) (Some (-2)%Z))
    with (String c3 (String d1 (String d2 (String d3 (String d4
            (String d5 "")))))).
  rewrite (capitalize_digits c3 _ Hfive). reflexivity.
Qed.

Lemma experiment_name_gives_run_and_proposal_witness :
  read_run "xppx1003221" terminal = (Returned ("run21", "X-10032"), terminal).
Proof.
  apply (experiment_name_gives_run_and_proposal "x" "p" "p" "x" "1003221");
    vm_compute; reflexivity.
Defined.

Lemma category_of_prefix cat r :
  In cat categories →
  category_of (cat.1 +:+ r)
  = if dotstar_then "-name" r then Some cat else None.
Proof.
  intros Hin. cbn in Hin.
  repeat (destruct Hin as [<-|Hin]; [reflexivity|]). done.
Qed.

Lemma dotstar_name mid :
  contains_char newline mid = false →
  dotstar_then "-name" (mid +:+ "-name") = true.
Proof.
  induction mid as [|x mid IH]; [done|].
  intros [Hx Hmid]%contains_char_cons. rewrite app_cons.
  cbn [dotstar_then]. unfold not_newline.
  rewrite (bool_decide_false _ Hx), (IH Hmid). cbn. apply orb_true_r.
Qed.

Lemma sub_name_other repl x r :
  x ≠ "n"%char → sub_name repl (String x r) = String x (sub_name repl r).
Proof.
  intros Hx. destruct x as [[] [] [] [] [] [] [] []];
    first [reflexivity | by destruct Hx].
Qed.

Lemma sub_name_tail repl mid :
  contains_char "n" mid = false →
  sub_name repl (mid +:+ "-name") = mid +:+ "-" +:+ repl.
Proof.
  induction mid as [|x mid IH].
  - intros _. rewrite !app_nil_l. cbn [sub_name].
    by rewrite app_nil_r.
  - intros [Hx Hmid]%contains_char_cons. rewrite !app_cons.
    by rewrite (sub_name_other _ _ _ Hx), (IH Hmid).
Qed.

(** X20. An entry of the questionnaire whose key is the prefix of a
    category, any text without the letter [n] and without a newline, and
    [-name] gives a row of the table: the alias is the value of the
    entry, the type that of the category, and the PV is the value found
    under the same key with [name] replaced by the category's word
    ([pvbase], or [pvname] for the power supplies), the empty string
    when the answer has no such key. *)
Theorem setup_entry_gives_its_row (d : pydict string) prefix repl ty mid
    alias :
  In (prefix, (repl, ty)) categories →
  NoDup (dict_keys d) →
  contains_char "n" mid = false →
  contains_char newline mid = false →
  (prefix +:+ mid +:+ "-name", alias) ∈ d →
  MkQStruct alias (dict_get_default d (prefix +:+ mid +:+ "-" +:+ repl)) ty
  ∈ display_list (cds_items (sorted_items d)).
Proof.
  intros Hcat Hnd Hn Hnl Hin.
  rewrite (table_rows d Hnd). apply list_elem_of_omap.
  exists (prefix +:+ mid +:+ "-name", alias). split.
  - unfold sorted_items. by rewrite (merge_sort_Permutation key_le d).
  - unfold display_row. cbn [fst snd].
    rewrite (category_of_prefix (prefix, (repl, ty)) _ Hcat).
    rewrite (dotstar_name mid Hnl).
    destruct (category_prefix (prefix, (repl, ty)) repl (mid +:+ "-name")
                Hcat) as [_ Hsub].
    cbn [fst] in Hsub. by rewrite Hsub, (sub_name_tail repl mid Hn).
Qed.

Lemma setup_entry_gives_its_row_witness :
  MkQStruct "supply" "XPP:PS:01" "power supplies"
  ∈ display_list (cds_items (sorted_items details)).
Proof.
  apply (setup_entry_gives_its_row details "pcdssetup-ps" "pvname"
           "power supplies" "-1" "supply").
  - vm_compute. tauto.
  - apply (bool_decide_unpack _). vm_compute. exact I.
  - vm_compute. reflexivity.
  - vm_compute. reflexivity.
  - apply (bool_decide_unpack _). vm_compute. exact I.
Defined.

End QsLoadFacts.
